(** * Razorpay / Shiprocket relay backend: model of [index.js]

    The development embeds the request handlers of [src/index.js] that carry
    logic of their own:

    - [getShiprocketToken], the single-slot, time-bounded credential cache;
    - [POST /shiprocket/create-order] with [sendShiprocketFailureEmail];
    - [POST /create-order], the Razorpay order creation;
    - [POST /verify-payment], the HMAC-SHA256 signature check.

    Handlers are written in a small monad that threads the process-wide cache,
    records every outbound call in a trace and propagates thrown errors, so
    that each definition can be read next to the JavaScript it models. *)

From Stdlib Require Import ZArith List String Ascii Bool Lia.
From Stdlib Require Import Floats.
Import ListNotations.

#[local] Set Warnings "-inexact-float".
Local Open Scope string_scope.
Local Open Scope list_scope.
Local Open Scope Z_scope.

(* ------------------------------------------------------------------------- *)
(** * Node's [crypto.createHmac("sha256", key).update(msg).digest("hex")]

    The handler delegates to Node's crypto module; the functions below follow
    FIPS 180-4 (SHA-256) and RFC 2104 (HMAC) on bytes, words being 32-bit
    integers in [Z] with the wrap-around written out. A [string] is read as the
    sequence of its bytes (the UTF-8 encoding Node applies to a JS string). *)

Module Crypto.

Definition mask32 : Z := 0xFFFFFFFF.
Definition wrap32 (x : Z) : Z := Z.land x mask32.
Definition add32 (x y : Z) : Z := wrap32 (x + y).
Definition not32 (x : Z) : Z := Z.lxor x mask32.
Definition rotr (n x : Z) : Z :=
  Z.lor (Z.shiftr x n) (wrap32 (Z.shiftl x (32 - n))).
Definition shr (n x : Z) : Z := Z.shiftr x n.

Definition Ch (x y z : Z) : Z := Z.lxor (Z.land x y) (Z.land (not32 x) z).
Definition Maj (x y z : Z) : Z :=
  Z.lxor (Z.lxor (Z.land x y) (Z.land x z)) (Z.land y z).
Definition bsig0 (x : Z) : Z := Z.lxor (Z.lxor (rotr 2 x) (rotr 13 x)) (rotr 22 x).
Definition bsig1 (x : Z) : Z := Z.lxor (Z.lxor (rotr 6 x) (rotr 11 x)) (rotr 25 x).
Definition ssig0 (x : Z) : Z := Z.lxor (Z.lxor (rotr 7 x) (rotr 18 x)) (shr 3 x).
Definition ssig1 (x : Z) : Z := Z.lxor (Z.lxor (rotr 17 x) (rotr 19 x)) (shr 10 x).

(** The constants are defined the way FIPS 180-4 states them: the first 32
    bits of the fractional parts of the cube roots (round constants) and of
    the square roots (initial hash value) of the first primes. *)
Definition is_prime (n : Z) : bool :=
  forallb (fun d => negb (n mod Z.of_nat d =? 0)) (seq 2 (Z.to_nat n - 2)).

Definition first_primes (k : nat) : list Z :=
  firstn k (filter is_prime (map Z.of_nat (seq 2 310))).

(** The integer cube root, built bit by bit from the top. *)
Fixpoint cube_root_bits (bits : nat) (n r : Z) : Z :=
  match bits with
  | O => r
  | S b =>
      let r' := r + 2 ^ Z.of_nat b in
      cube_root_bits b n (if r' * r' * r' <=? n then r' else r)
  end.

Definition frac_cbrt32 (p : Z) : Z := wrap32 (cube_root_bits 40 (p * 2 ^ 96) 0).
Definition frac_sqrt32 (p : Z) : Z := wrap32 (Z.sqrt (p * 2 ^ 64)).

Definition K256 : list Z := Eval vm_compute in map frac_cbrt32 (first_primes 64).
Definition IV256 : list Z := Eval vm_compute in map frac_sqrt32 (first_primes 8).

(** Big-endian packing of bytes into words and back. *)
Fixpoint words_of_bytes (bs : list Z) : list Z :=
  match bs with
  | b0 :: b1 :: b2 :: b3 :: rest =>
      (Z.shiftl b0 24 + Z.shiftl b1 16 + Z.shiftl b2 8 + b3)
        :: words_of_bytes rest
  | _ => []
  end.

Definition bytes_of_word (w : Z) : list Z :=
  [ Z.land (Z.shiftr w 24) 255; Z.land (Z.shiftr w 16) 255;
    Z.land (Z.shiftr w 8) 255; Z.land w 255 ].

Definition bytes_of_u64 (n : Z) : list Z :=
  bytes_of_word (Z.shiftr n 32) ++ bytes_of_word (wrap32 n).

(** Padding: a [0x80] byte, zeros up to 56 mod 64, then the bit length. *)
Definition pad (msg : list Z) : list Z :=
  let len := Z.of_nat (List.length msg) in
  let zeros := Z.to_nat ((55 - len) mod 64) in
  msg ++ [128] ++ repeat 0 zeros ++ bytes_of_u64 (8 * len).

(** Message schedule: [ws] holds the words computed so far, newest first. *)
Fixpoint extend_schedule (n : nat) (ws : list Z) : list Z :=
  match n with
  | O => ws
  | S n' =>
      let w2 := nth 1 ws 0 in
      let w7 := nth 6 ws 0 in
      let w15 := nth 14 ws 0 in
      let w16 := nth 15 ws 0 in
      extend_schedule n'
        (add32 (add32 (ssig1 w2) w7) (add32 (ssig0 w15) w16) :: ws)
  end.

Definition schedule (block : list Z) : list Z :=
  rev (extend_schedule 48 (rev block)).

Record regs := Regs { ra : Z; rb : Z; rc : Z; rd : Z; re : Z; rf : Z; rg : Z; rh : Z }.

Definition round (s : regs) (kw : Z * Z) : regs :=
  let t1 := add32 (add32 (add32 (rh s) (bsig1 (re s))) (Ch (re s) (rf s) (rg s)))
                  (add32 (fst kw) (snd kw)) in
  let t2 := add32 (bsig0 (ra s)) (Maj (ra s) (rb s) (rc s)) in
  Regs (add32 t1 t2) (ra s) (rb s) (rc s) (add32 (rd s) t1) (re s) (rf s) (rg s).

Definition regs_of_list (h : list Z) : regs :=
  Regs (nth 0 h 0) (nth 1 h 0) (nth 2 h 0) (nth 3 h 0)
       (nth 4 h 0) (nth 5 h 0) (nth 6 h 0) (nth 7 h 0).

Definition list_of_regs (s : regs) : list Z :=
  [ra s; rb s; rc s; rd s; re s; rf s; rg s; rh s].

Definition compress (h : list Z) (block : list Z) : list Z :=
  let s := fold_left round (combine K256 (schedule block)) (regs_of_list h) in
  map (fun p => add32 (fst p) (snd p)) (combine h (list_of_regs s)).

Fixpoint process_blocks (n : nat) (h : list Z) (ws : list Z) : list Z :=
  match n with
  | O => h
  | S n' => process_blocks n' (compress h (firstn 16 ws)) (skipn 16 ws)
  end.

Definition sha256 (msg : list Z) : list Z :=
  let ws := words_of_bytes (pad msg) in
  flat_map bytes_of_word (process_blocks (List.length ws / 16) IV256 ws).

(** RFC 2104 with block size 64: a key longer than a block is hashed first. *)
Definition hmac_key (key : list Z) : list Z :=
  let k := if (64 <? Z.of_nat (List.length key)) then sha256 key else key in
  k ++ repeat 0 (64 - List.length k)%nat.

Definition hmac_sha256 (key msg : list Z) : list Z :=
  let k := hmac_key key in
  let ipad := map (Z.lxor 0x36) k in
  let opad := map (Z.lxor 0x5c) k in
  sha256 (opad ++ sha256 (ipad ++ msg)).

Definition bytes_of_string (s : string) : list Z :=
  map (fun c => Z.of_N (N_of_ascii c)) (list_ascii_of_string s).

Definition hex_digit (d : Z) : ascii :=
  nth (Z.to_nat d) (list_ascii_of_string "0123456789abcdef") "0"%char.

Fixpoint hex_of_bytes (bs : list Z) : string :=
  match bs with
  | [] => EmptyString
  | b :: rest =>
      String (hex_digit (Z.shiftr b 4))
        (String (hex_digit (Z.land b 15)) (hex_of_bytes rest))
  end.

(** [createHmac("sha256", key).update(msg).digest("hex")]. *)
Definition hmac_sha256_hex (key msg : string) : string :=
  hex_of_bytes (hmac_sha256 (bytes_of_string key) (bytes_of_string msg)).

Definition sha256_hex (msg : string) : string :=
  hex_of_bytes (sha256 (bytes_of_string msg)).

End Crypto.

(* ------------------------------------------------------------------------- *)
(** * JavaScript values of request bodies *)

(** A scalar JSON value as a handler reads it from [req.body]; [JUndefined]
    is what reading an absent property gives. Numbers are IEEE-754 binary64
    values, as in JavaScript. *)
Inductive jsval :=
| JUndefined
| JNull
| JBool (b : bool)
| JNum (x : float)
| JStr (s : string).

(** ToBoolean: [undefined], [null], [false], [0], [-0], [NaN] and the empty
    string are falsy. *)
Definition truthy (v : jsval) : bool :=
  match v with
  | JUndefined | JNull => false
  | JBool b => b
  | JNum x => negb (PrimFloat.is_nan x) && negb (PrimFloat.eqb x 0%float)
  | JStr s => negb (String.eqb s "")
  end.

(** String-or-absent properties: [None] is an absent property. *)
Definition opt_truthy (o : option string) : bool :=
  match o with
  | Some s => negb (String.eqb s "")
  | None => false
  end.

(** [o || d] for a string-or-absent [o]. *)
Definition or_default (o : option string) (d : string) : string :=
  match o with
  | Some s => if String.eqb s "" then d else s
  | None => d
  end.

(** ToString of a string-or-absent value, as string concatenation applies it. *)
Definition to_str (o : option string) : string :=
  match o with
  | Some s => s
  | None => "undefined"
  end.

(** [a === b] where [a] is a string. *)
Definition strict_eq (a : string) (b : option string) : bool :=
  match b with
  | Some s => String.eqb a s
  | None => false
  end.

(** [Number.isInteger] on a binary64 value. *)
Definition is_integer (x : float) : bool :=
  match Prim2SF x with
  | S754_zero _ => true
  | S754_finite _ m e => (0 <=? e) || (Z.pos m mod 2 ^ (- e) =? 0)
  | _ => false
  end.

(** Decimal rendering of a time value, for [`receipt_${Date.now()}`]. *)
Definition digit_of (d : Z) : ascii :=
  nth (Z.to_nat d) (list_ascii_of_string "0123456789") "0"%char.

Fixpoint decimal_digits (fuel : nat) (n : Z) (acc : string) : string :=
  match fuel with
  | O => acc
  | S fuel' =>
      let acc' := String (digit_of (n mod 10)) acc in
      if n <? 10 then acc' else decimal_digits fuel' (n / 10) acc'
  end.

Definition decimal (n : Z) : string :=
  if n <? 0 then String "-"%char (decimal_digits (S (Z.to_nat (Z.log2 (- n)))) (- n) "")
  else decimal_digits (S (Z.to_nat (Z.log2 n))) n "".

(* ------------------------------------------------------------------------- *)
(** * Request and response data *)

(** An element of [order_items]: only the properties the failure email reads. *)
Record Item := {
  item_name : jsval;
  item_units : jsval;
  item_selling_price : jsval
}.

(** The body of [POST /shiprocket/create-order]. Scalar properties are
    [jsval]s; [order_items] is absent or [null] ([None]) or an array whose
    elements are objects or [null] (JSON has no [undefined] element). *)
Record OrderData := {
  order_id : jsval;
  order_date : jsval;
  pickup_location : jsval;
  billing_customer_name : jsval;
  billing_address : jsval;
  billing_city : jsval;
  billing_pincode : jsval;
  billing_state : jsval;
  billing_country : jsval;
  billing_email : jsval;
  billing_phone : jsval;
  order_items : option (list (option Item))
}.

(** The body of [POST /create-order]; [amount] is a JSON number. *)
Record CreateOrderBody := {
  amount : float;
  currency : option string;
  receipt : option string;
  notes : option (list (string * string))
}.

(** The [options] object handed to [razorpay.orders.create]. *)
Record OrderOptions := {
  opt_amount : float;
  opt_currency : string;
  opt_receipt : string;
  opt_notes : list (string * string)
}.

(** The body of [POST /verify-payment]. *)
Record VerifyBody := {
  razorpay_order_id : option string;
  razorpay_payment_id : option string;
  razorpay_signature : option string
}.

(** What [res.status(s).json({...})] sends: the status, the [success] flag,
    the [message] when the object has one, and the remaining properties with
    their values ([JSON.stringify] drops a property whose value is
    [undefined]). *)
Record Response := {
  status : Z;
  success : bool;
  message : option string;
  fields : list (string * string)
}.

Definition field (k : string) (v : option string) : list (string * string) :=
  match v with
  | Some s => [(k, s)]
  | None => []
  end.

Fixpoint lookup_field (k : string) (fs : list (string * string)) : option string :=
  match fs with
  | [] => None
  | (k', v) :: rest => if String.eqb k k' then Some v else lookup_field k rest
  end.

(* ------------------------------------------------------------------------- *)
(** * The outside world *)

(** What the login call comes back with. [fetch] resolves for any HTTP status,
    so a reply carries the status flag [response.ok] next to the parsed body
    [data], of which the code reads [data.token] and [data.message]; both are
    strings in the vendor's contract, and [None] is an absent property. *)
Inductive LoginReply :=
| LoginRejected (err : string)
    (* fetch or response.json() rejected, or the body was null *)
| LoginData (http_ok : bool) (token : option string) (vendor_message : option string).

(** What the shipment API comes back with. *)
Inductive ShipmentReply :=
| ShipmentRejected (err : string)
| ShipmentData (http_ok : bool) (http_status : Z) (data : string).

(** What [razorpay.orders.create] comes back with. *)
Inductive GatewayReply :=
| GatewayRejected (err : string)
| GatewayOrder (order : string).

(** Every outbound call a handler makes, in the order it is made. *)
Inductive event :=
| NetLogin
| NetCreateShipment (token : string) (body : OrderData)
| MailAttempt (subject : string)
| GatewayCreateOrder (options : OrderOptions).

(** The answers of the outside world during one handler run. *)
Record Env := {
  env_now : Z;                 (* the first clock reading, in ms since the epoch *)
  env_login : LoginReply;
  env_store_time : Z;          (* the clock when the login reply is processed *)
  env_shipment : ShipmentReply;
  env_mail : bool;             (* whether sendMail resolves *)
  env_gateway : OrderOptions -> GatewayReply;
  env_key_id : option string   (* process.env.RAZORPAY_KEY_ID *)
}.

(** The module-level variables [shiprocketToken] and [tokenExpiryTime];
    [None] is [null]. *)
Record TokenCache := {
  shiprocketToken : option string;
  tokenExpiryTime : option Z
}.

Record World := {
  cache : TokenCache;
  trace : list event
}.

Definition cold_cache : TokenCache :=
  {| shiprocketToken := None; tokenExpiryTime := None |}.

Definition cold_world : World := {| cache := cold_cache; trace := [] |}.

(* ------------------------------------------------------------------------- *)
(** * The handler monad: environment, state, exceptions *)

Inductive outcome (A : Type) :=
| Returns (a : A)
| Throws (err : string).
Arguments Returns {A} a.
Arguments Throws {A} err.

Definition M (A : Type) : Type := Env -> World -> outcome A * World.

Definition ret {A} (a : A) : M A := fun _ w => (Returns a, w).

Definition bind {A B} (m : M A) (k : A -> M B) : M B :=
  fun e w =>
    match m e w with
    | (Returns a, w') => k a e w'
    | (Throws err, w') => (Throws err, w')
    end.

Definition throw {A} (err : string) : M A := fun _ w => (Throws err, w).

(** [try { m } catch (error) { h error }]: what [m] did to the world stays. *)
Definition try_catch {A} (m : M A) (h : string -> M A) : M A :=
  fun e w =>
    match m e w with
    | (Returns a, w') => (Returns a, w')
    | (Throws err, w') => h err e w'
    end.

Definition asks {A} (f : Env -> A) : M A := fun e w => (Returns (f e), w).

Definition get_cache : M TokenCache := fun _ w => (Returns (cache w), w).

Definition set_cache (c : TokenCache) : M unit :=
  fun _ w => (Returns tt, {| cache := c; trace := trace w |}).

Definition emit (ev : event) : M unit :=
  fun _ w => (Returns tt, {| cache := cache w; trace := trace w ++ [ev] |}).

Declare Scope js_scope.
Delimit Scope js_scope with js.
Notation "x <- m ;; k" := (bind m (fun x => k))
  (at level 61, m at next level, right associativity) : js_scope.
Notation "m ;; k" := (bind m (fun _ => k))
  (at level 61, right associativity) : js_scope.
Local Open Scope js_scope.

(* ------------------------------------------------------------------------- *)
(** * The Shiprocket credential cache *)

Definition HOUR_MS : Z := 3600000.

(** [d.setHours(d.getHours() + h)] on the time value of [d]. The server's
    local time is taken to be at a fixed offset from UTC, so that moving the
    local hour field by [h] moves the time value by [h] hours. *)
Definition add_hours (t h : Z) : Z := t + h * HOUR_MS.

(** The window the code stores ("Set expiry to 23 hours to be safe") and the
    lifetime its comment gives for the vendor's token ("typically 24 hours
    for Shiprocket"). *)
Definition TOKEN_VALIDITY_HOURS : Z := 23.

(** [shiprocketToken && tokenExpiryTime && currentTime < tokenExpiryTime]:
    the token to serve from the cache, if any. *)
Definition cached_token (c : TokenCache) (currentTime : Z) : option string :=
  match shiprocketToken c, tokenExpiryTime c with
  | Some tok, Some expiry =>
      if negb (String.eqb tok "") && (currentTime <? expiry) then Some tok else None
  | _, _ => None
  end.

Definition cache_valid (c : TokenCache) (currentTime : Z) : bool :=
  match cached_token c currentTime with
  | Some _ => true
  | None => false
  end.

(** [data.message || "Failed to authenticate with Shiprocket"]. *)
Definition login_error (vendor_message : option string) : string :=
  or_default vendor_message "Failed to authenticate with Shiprocket".

Definition getShiprocketToken : M string :=
  currentTime <- asks env_now ;;
  c <- get_cache ;;
  match cached_token c currentTime with
  | Some tok => ret tok
  | None =>
      try_catch
        (emit NetLogin ;;
         reply <- asks env_login ;;
         match reply with
         | LoginRejected err => throw err
         | LoginData _ token vendor_message =>
             if opt_truthy token then
               issued <- asks env_store_time ;;
               set_cache {| shiprocketToken := token;
                            tokenExpiryTime :=
                              Some (add_hours issued TOKEN_VALIDITY_HOURS) |} ;;
               ret (to_str token)
             else throw (login_error vendor_message)
         end)
        (fun error => throw error)
  end.

(** One call on its own trace: the result, the cache it leaves and the
    outbound calls it made. *)
Definition getToken_call (e : Env) (c : TokenCache)
  : outcome string * TokenCache * list event :=
  let '(r, w) := getShiprocketToken e {| cache := c; trace := [] |} in
  (r, cache w, trace w).

Definition is_login (ev : event) : bool :=
  match ev with NetLogin => true | _ => false end.


Definition is_shipment_call (ev : event) : bool :=
  match ev with NetCreateShipment _ _ => true | _ => false end.


Definition count (p : event -> bool) (evs : list event) : nat :=
  List.length (filter p evs).


(** A login reply the code accepts: it carries a non-empty token. *)
Definition login_ok (r : LoginReply) : bool :=
  match r with
  | LoginData _ token _ => opt_truthy token
  | LoginRejected _ => false
  end.


(** The clock reading at which a call returns: the one it took on entry when
    it serves the cache, the one it took to stamp the credential otherwise. *)
Definition return_time (e : Env) (c : TokenCache) : Z :=
  if cache_valid c (env_now e) then env_now e else env_store_time e.

(** The world after a login call that stored nothing. *)
Definition after_login (w : World) : World :=
  {| cache := cache w; trace := trace w ++ [NetLogin] |}.

(** The world after a login call that stored [token], stamped at [issued]. *)
Definition after_refresh (w : World) (token : option string) (issued : Z) : World :=
  {| cache := {| shiprocketToken := token;
                 tokenExpiryTime := Some (add_hours issued TOKEN_VALIDITY_HOURS) |};
     trace := trace w ++ [NetLogin] |}.

(** What a failed login throws. *)
Definition failure_message (r : LoginReply) : string :=
  match r with
  | LoginRejected err => err
  | LoginData _ _ vendor_message => login_error vendor_message
  end.

Ltac unfold_m :=
  unfold getShiprocketToken, try_catch, bind, ret, throw, asks, get_cache,
    set_cache, emit in *.

(** What every reachable cache satisfies: both variables are [null], or the
    token is a non-empty string and the expiry is set. *)
Definition cache_wf (c : TokenCache) : Prop :=
  match shiprocketToken c, tokenExpiryTime c with
  | None, None => True
  | Some tok, Some _ => tok <> ""
  | _, _ => False
  end.


(* ------------------------------------------------------------------------- *)
(** * Shipment order creation *)

Definition items_missing (items : option (list (option Item))) : bool :=
  match items with
  | None => true
  | Some l => (List.length l =? 0)%nat
  end.

(** The guard of the handler: some required property is falsy, or
    [order_items] is falsy or empty. *)
Definition missing_required (d : OrderData) : bool :=
  negb (truthy (order_id d)) || negb (truthy (order_date d))
  || negb (truthy (pickup_location d))
  || negb (truthy (billing_customer_name d)) || negb (truthy (billing_address d))
  || negb (truthy (billing_city d)) || negb (truthy (billing_pincode d))
  || negb (truthy (billing_state d))
  || negb (truthy (billing_country d)) || negb (truthy (billing_email d))
  || negb (truthy (billing_phone d))
  || items_missing (order_items d).

(** [order_items.map(item => ... item.name ...)] reads a property of every
    element, which throws a TypeError on a [null] element. *)
Definition has_null_item (items : option (list (option Item))) : bool :=
  match items with
  | None => false
  | Some l => existsb (fun i => match i with None => true | Some _ => false end) l
  end.

(** The bodies of the messages are not modelled, only whether building them
    throws; an attempt to send is recorded with its subject. *)
Definition sendShiprocketFailureEmail (subject : string) (orderData : OrderData) : M bool :=
  try_catch
    (if has_null_item (order_items orderData)
     then throw "TypeError: Cannot read properties of null (reading 'name')"
     else
       emit (MailAttempt subject) ;;
       sent <- asks env_mail ;;
       if sent then ret true else throw "sendMail failed")
    (fun _ => ret false).

(** The events of one notification: none when building the message throws on
    a [null] item, one attempt to send otherwise. *)
Definition mail_events (subject : string) (d : OrderData) : list event :=
  if has_null_item (order_items d) then [] else [MailAttempt subject].

Definition shiprocket_create_order (orderData : OrderData) : M Response :=
  try_catch
    (token <- getShiprocketToken ;;
     if missing_required orderData then
       sendShiprocketFailureEmail
         "Shiprocket Order Creation Failed - Missing Data" orderData ;;
       ret {| status := 400; success := false;
              message := Some "Missing required order information";
              fields := [] |}
     else
       emit (NetCreateShipment token orderData) ;;
       reply <- asks env_shipment ;;
       match reply with
       | ShipmentRejected err => throw err
       | ShipmentData ok http_status data =>
           if ok then
             ret {| status := 200; success := true;
                    message := Some "Order created successfully on Shiprocket";
                    fields := [("data", data)] |}
           else
             sendShiprocketFailureEmail
               "Shiprocket Order Creation Failed - API Error" orderData ;;
             ret {| status := http_status; success := false;
                    message := Some "Failed to create order on Shiprocket";
                    fields := [("error", data)] |}
       end)
    (fun error =>
       sendShiprocketFailureEmail
         "Shiprocket Order Creation Failed - Exception" orderData ;;
       ret {| status := 500; success := false;
              message := Some "Error creating Shiprocket order";
              fields := [("error", error)] |}).

(* ------------------------------------------------------------------------- *)
(** * Razorpay order creation *)

(** The [options] the handler builds from the body; [now] is [Date.now()]. *)
Definition order_options (body : CreateOrderBody) (now : Z) : OrderOptions :=
  {| opt_amount := (amount body * 100)%float;
     opt_currency := or_default (currency body) "INR";
     opt_receipt := or_default (receipt body) ("receipt_" ++ decimal now)%string;
     opt_notes := match notes body with Some n => n | None => [] end |}.

Definition create_order (body : CreateOrderBody) : M Response :=
  try_catch
    (now <- asks env_now ;;
     let options := order_options body now in
     emit (GatewayCreateOrder options) ;;
     gateway <- asks env_gateway ;;
     match gateway options with
     | GatewayRejected err => throw err
     | GatewayOrder order =>
         key <- asks env_key_id ;;
         ret {| status := 200; success := true; message := None;
                fields := ("order", order) :: field "key" key |}
     end)
    (fun error =>
       ret {| status := 500; success := false;
              message := Some "Failed to create order";
              fields := [("error", error)] |}).

(* ------------------------------------------------------------------------- *)
(** * Payment verification *)

(** [crypto.createHmac("sha256", key)] throws a TypeError (code
    ERR_INVALID_ARG_TYPE) when [key] is [undefined]; otherwise
    [.update(data).digest("hex")] is the hex HMAC-SHA256. *)
Definition createHmac_digest (key : option string) (data : string) : outcome string :=
  match key with
  | Some k => Returns (Crypto.hmac_sha256_hex k data)
  | None => Throws "ERR_INVALID_ARG_TYPE"
  end.

(** The handler makes no outbound call and reads no shared state: it is a
    function of [process.env.RAZORPAY_KEY_SECRET] and the body. *)
Definition verify_payment (secret : option string) (body : VerifyBody) : Response :=
  let sign := (to_str (razorpay_order_id body) ++ "|"
               ++ to_str (razorpay_payment_id body))%string in
  match createHmac_digest secret sign with
  | Returns expectedSignature =>
      let isAuthentic := strict_eq expectedSignature (razorpay_signature body) in
      if isAuthentic then
        {| status := 200; success := true;
           message := Some "Payment verification successful";
           fields := field "orderId" (razorpay_order_id body)
                     ++ field "paymentId" (razorpay_payment_id body) |}
      else
        {| status := 400; success := false;
           message := Some "Payment verification failed";
           fields := [] |}
  | Throws error =>
      {| status := 500; success := false;
         message := Some "Internal server error during verification";
         fields := [("error", error)] |}
  end.

(** The three shapes of the handler's answer. *)
Definition is_authentic (r : Response) : bool := (status r =? 200) && success r.

(** The message the handler signs. *)
Definition signed_message (body : VerifyBody) : string :=
  (to_str (razorpay_order_id body) ++ "|" ++ to_str (razorpay_payment_id body))%string.

Definition authentic_response (body : VerifyBody) : Response :=
  {| status := 200; success := true;
     message := Some "Payment verification successful";
     fields := field "orderId" (razorpay_order_id body)
               ++ field "paymentId" (razorpay_payment_id body) |}.

Definition not_authentic_response : Response :=
  {| status := 400; success := false;
     message := Some "Payment verification failed";
     fields := [] |}.

Definition error_response (err : string) : Response :=
  {| status := 500; success := false;
     message := Some "Internal server error during verification";
     fields := [("error", err)] |}.

(* ------------------------------------------------------------------------- *)
(** * Sample inputs *)

Module Samples.

Definition t0 : Z := 1700000000000.

(** A gateway that accepts whole amounts of at least one rupee. *)
Definition gateway (o : OrderOptions) : GatewayReply :=
  if negb (is_integer (opt_amount o))
  then GatewayRejected "The amount must be an integer."
  else if (100 <=? opt_amount o)%float
  then GatewayOrder "order_N1"
  else GatewayRejected "Order amount less than minimum amount allowed".

Definition env_at (now : Z) (login : LoginReply) : Env :=
  {| env_now := now;
     env_login := login;
     env_store_time := now + 250;
     env_shipment := ShipmentData true 200 "{}";
     env_mail := true;
     env_gateway := gateway;
     env_key_id := Some "rzp_test_key" |}.

Definition login_tok1 : LoginReply := LoginData true (Some "tok_1") None.
Definition login_tok2 : LoginReply := LoginData true (Some "tok_2") None.

Definition env0 : Env := env_at t0 login_tok1.

Definition warm_cache : TokenCache :=
  {| shiprocketToken := Some "tok_1";
     tokenExpiryTime := Some (add_hours (t0 + 250) TOKEN_VALIDITY_HOURS) |}.

Definition warm_world : World := {| cache := warm_cache; trace := [] |}.


Definition item1 : Item :=
  {| item_name := JStr "Joint oil"; item_units := JNum 2%float;
     item_selling_price := JNum 499%float |}.

Definition full_order : OrderData :=
  {| order_id := JStr "ORD-1001";
     order_date := JStr "2024-01-15";
     pickup_location := JStr "Primary";
     billing_customer_name := JStr "Asha";
     billing_address := JStr "12 MG Road";
     billing_city := JStr "Bengaluru";
     billing_pincode := JNum 560001%float;
     billing_state := JStr "Karnataka";
     billing_country := JStr "India";
     billing_email := JStr "asha@example.com";
     billing_phone := JStr "9999999999";
     order_items := Some [Some item1] |}.



Definition body_19_99 : CreateOrderBody :=
  {| amount := 19.99%float; currency := Some "INR";
     receipt := Some "rcpt_1"; notes := None |}.


Definition golden_signature : string :=
  "8ab882b69975648bd036bb84b853484100f7addce5cead23e8a2d9ffe5ba21c8".

Definition verify_body (sig : option string) : VerifyBody :=
  {| razorpay_order_id := Some "order_ABC123";
     razorpay_payment_id := Some "pay_XYZ789";
     razorpay_signature := sig |}.


End Samples.

(* ------------------------------------------------------------------------- *)
(** * The remaining Shiprocket handlers *)

(** What [GET /shiprocket/test-auth] hands to [res.json]: on success the
    token and the module variable [tokenExpiryTime] as it is after the call,
    on failure the error's message. *)
Record AuthTestResponse := {
  at_status : Z;
  at_success : bool;
  at_message : string;
  at_tokenExpiresAt : option Z;
  at_token : option string;
  at_error : option string
}.

Definition shiprocket_test_auth : M AuthTestResponse :=
  try_catch
    (token <- getShiprocketToken ;;
     c <- get_cache ;;
     ret {| at_status := 200; at_success := true;
            at_message := "Shiprocket authentication successful";
            at_tokenExpiresAt := tokenExpiryTime c;
            at_token := Some token;
            at_error := None |})
    (fun error =>
       ret {| at_status := 500; at_success := false;
              at_message := "Shiprocket authentication failed";
              at_tokenExpiresAt := None;
              at_token := None;
              at_error := Some error |}).

(** Whether a call of [getShiprocketToken] can come back with a token: the
    cache serves one, or the login reply carries one. *)
Definition token_available (e : Env) (w : World) : bool :=
  cache_valid (cache w) (env_now e) || login_ok (env_login e).

(** The world after one notification about [d] was handled. *)
Definition notified (subject : string) (d : OrderData) (w : World) : World :=
  {| cache := cache w; trace := trace w ++ mail_events subject d |}.

(** The world after the order was posted to the shipment API. *)
Definition posted (token : string) (d : OrderData) (w : World) : World :=
  {| cache := cache w; trace := trace w ++ [NetCreateShipment token d] |}.

(** The same answers of the world, except for the mail transport. *)
Definition with_mail (b : bool) (e : Env) : Env :=
  {| env_now := env_now e;
     env_login := env_login e;
     env_store_time := env_store_time e;
     env_shipment := env_shipment e;
     env_mail := b;
     env_gateway := env_gateway e;
     env_key_id := env_key_id e |}.


(** The events a run appended to the trace it started from. *)
Definition new_events (w w' : World) : list event :=
  skipn (List.length (trace w)) (trace w').

(** The four answers of [POST /shiprocket/create-order]. *)
Definition missing_data_response : Response :=
  {| status := 400; success := false;
     message := Some "Missing required order information";
     fields := [] |}.

Definition created_response (data : string) : Response :=
  {| status := 200; success := true;
     message := Some "Order created successfully on Shiprocket";
     fields := [("data", data)] |}.

Definition api_error_response (http_status : Z) (data : string) : Response :=
  {| status := http_status; success := false;
     message := Some "Failed to create order on Shiprocket";
     fields := [("error", data)] |}.

Definition exception_response (err : string) : Response :=
  {| status := 500; success := false;
     message := Some "Error creating Shiprocket order";
     fields := [("error", err)] |}.

(** The handler's run, path by path, in terms of the run of
    [getShiprocketToken] that opens it. *)
Definition create_order_paths (d : OrderData) (e : Env)
  (acquired : outcome string * World) : outcome Response * World :=
  match acquired with
  | (Throws err, w1) =>
      (Returns (exception_response err),
       notified "Shiprocket Order Creation Failed - Exception" d w1)
  | (Returns token, w1) =>
      if missing_required d then
        (Returns missing_data_response,
         notified "Shiprocket Order Creation Failed - Missing Data" d w1)
      else
        match env_shipment e with
        | ShipmentRejected err =>
            (Returns (exception_response err),
             notified "Shiprocket Order Creation Failed - Exception" d
               (posted token d w1))
        | ShipmentData ok http_status data =>
            if ok then (Returns (created_response data), posted token d w1)
            else
              (Returns (api_error_response http_status data),
               notified "Shiprocket Order Creation Failed - API Error" d
                 (posted token d w1))
        end
  end.

(** The login a call of [getShiprocketToken] makes: none on a cache hit. *)
Definition login_events (e : Env) (w : World) : list event :=
  if cache_valid (cache w) (env_now e) then [] else [NetLogin].

(** Sample worlds for the shipment API. *)
Module ShipmentSamples.


End ShipmentSamples.

(* ------------------------------------------------------------------------- *)
(** * Text of the emails

    The email handlers cut and pad text by length, which JavaScript counts in
    UTF-16 code units; their strings are modelled as lists of code units. *)

Definition ustring : Type := list N.

(** An ASCII literal of the source. *)
Definition lit (s : string) : ustring :=
  map N_of_ascii (list_ascii_of_string s).

Definition SPACE : N := 32.
Definition DASH : N := 45.
Definition NEWLINE : N := 10.
Definition RUPEE : ustring := [8377%N].      (* the one code unit U+20B9 *)

(** [s.padEnd(n)] and [s.substring(0, n)]. *)
Definition padEnd (n : nat) (s : ustring) : ustring :=
  s ++ repeat SPACE (n - List.length s).

Definition substring0 (n : nat) (s : ustring) : ustring := firstn n s.

(** ['-'.repeat(n)]. *)
Definition dashes (n : nat) : ustring := repeat DASH n.

(** A scalar value of an email request. *)
Inductive uval :=
| UUndefined
| UNull
| UBool (b : bool)
| UNum (x : float)
| UStr (s : ustring).

Definition u_truthy (v : uval) : bool :=
  match v with
  | UUndefined | UNull => false
  | UBool b => b
  | UNum x => negb (PrimFloat.is_nan x) && negb (PrimFloat.eqb x 0%float)
  | UStr s => negb (Nat.eqb (List.length s) 0)
  end.

(** An element of [orderDetails.products]. *)
Record Product := {
  p_name : uval;
  p_quantity : uval;
  p_price : uval
}.

(** The rule line of the table and its title line, 69 code units each. *)
Definition table_rule : ustring :=
  lit "+" ++ dashes 40 ++ lit "+" ++ dashes 10 ++ lit "+" ++ dashes 15 ++ lit "+".

Definition table_title : ustring :=
  lit "| Product Name                            | Quantity | Price        |".

Definition line_break : ustring := NEWLINE :: lit "  ".

Definition table_header : ustring :=
  lit "Products:" ++ line_break ++ table_rule ++ line_break
  ++ table_title ++ line_break ++ table_rule ++ line_break.

Section EmailText.

(** ToString of a number is the JavaScript runtime's; the text functions
    take it as given. *)
Variable number_to_string : float -> ustring.

(** ToString of a scalar. *)
Definition u_to_string (v : uval) : ustring :=
  match v with
  | UUndefined => lit "undefined"
  | UNull => lit "null"
  | UBool true => lit "true"
  | UBool false => lit "false"
  | UNum x => number_to_string x
  | UStr s => s
  end.

(** [(product.name || '').padEnd(40).substring(0, 40)]: a truthy name that
    is not a string has no [padEnd], and the call throws. *)
Definition name_cell (name : uval) : outcome ustring :=
  if u_truthy name then
    match name with
    | UStr s => Returns (substring0 40 (padEnd 40 s))
    | _ => Throws "TypeError: padEnd is not a function"
    end
  else Returns (substring0 40 (padEnd 40 [])).

(** [(product.quantity?.toString() || '').padEnd(10).substring(0, 10)]. *)
Definition quantity_cell (quantity : uval) : ustring :=
  let text := match quantity with
              | UUndefined | UNull => []
              | v => u_to_string v
              end in
  substring0 10 (padEnd 10 text).

(** [((currency || RUPEE) + ' ' + (product.price || ''))
       .padEnd(15).substring(0, 15)]. *)
Definition price_cell (currency price : uval) : ustring :=
  let unit := if u_truthy currency then u_to_string currency else RUPEE in
  let amount := if u_truthy price then u_to_string price else [] in
  substring0 15 (padEnd 15 (unit ++ lit " " ++ amount)).

(** One pass of the [forEach]: the row appended for [product]; reading a
    property of a [null] element throws. *)
Definition table_row (currency : uval) (product : option Product) : outcome ustring :=
  match product with
  | None => Throws "TypeError: Cannot read properties of null (reading 'name')"
  | Some p =>
      match name_cell (p_name p) with
      | Throws err => Throws err
      | Returns name =>
          Returns (lit "| " ++ name ++ lit " | " ++ quantity_cell (p_quantity p)
                   ++ lit " | " ++ price_cell currency (p_price p)
                   ++ lit " |" ++ line_break)
      end
  end.

(** The [forEach] over the products, appending to [acc]. *)
Fixpoint table_rows (currency : uval) (products : list (option Product))
  (acc : ustring) : outcome ustring :=
  match products with
  | [] => Returns acc
  | p :: rest =>
      match table_row currency p with
      | Throws err => Throws err
      | Returns row => table_rows currency rest (acc ++ row)
      end
  end.

(** The fields of [orderDetails] the handlers read before they send. *)
Record OrderDetails := {
  orderNumber : uval;
  products : option (list (option Product));   (* [None]: not an array *)
  od_currency : uval;
  od_productName : uval;
  od_quantity : uval
}.

(** [productsContent]: the table when [products] is a non-empty array, the
    one-product lines otherwise. *)
Definition productsContent (od : OrderDetails) : outcome ustring :=
  match products od with
  | Some (p :: rest) =>
      match table_rows (od_currency od) (p :: rest) table_header with
      | Throws err => Throws err
      | Returns body => Returns (body ++ table_rule)
      end
  | _ =>
      Returns (lit "Product: "
               ++ (if u_truthy (od_productName od)
                   then u_to_string (od_productName od) else lit "N/A")
               ++ line_break ++ lit "Quantity: "
               ++ (if u_truthy (od_quantity od)
                   then u_to_string (od_quantity od) else lit "1"))
  end.

End EmailText.


(* ------------------------------------------------------------------------- *)
(** * The handlers outside the order paths: tracking, YouTube, emails *)

(** What the tracking call comes back with. *)
Inductive TrackReply :=
| TrackRejected (err : string)        (* fetch or response.json() rejected *)
| TrackData (http_ok : bool) (http_status : Z) (data : string).

(** One element of [data.items] of the YouTube subscriptions reply, as far as
    [item.snippet.resourceId.channelId] goes: reading it throws when the
    element is [null] or lacks [snippet] or [snippet.resourceId]; otherwise it
    is a string or [undefined]. *)
Inductive Subscription :=
| SubBroken
| SubChannel (channelId : option string).

(** What the subscriptions call comes back with: [data.error] (an object,
    rendered; [None] when absent) and [data.items] ([None] when absent). *)
Inductive SubscriptionsReply :=
| SubsRejected (err : string)   (* fetch or response.json() rejected, or a null body *)
| SubsData (error : option string) (items : option (list Subscription)).

(** The header of a message handed to [transporter.sendMail]; the text and
    HTML bodies are not part of the model. *)
Record MailOptions := {
  mail_from : option string;
  mail_to : uval;
  mail_cc : option string;
  mail_subject : ustring
}.

(** The outbound calls of these handlers, next to those of the order paths. *)
Inductive call :=
| Shop (ev : event)
| NetTrack (token shipmentId : string)
| NetSubscriptions (accessToken : jsval)
| SendMail (m : MailOptions).

Record Env2 := {
  env_shop : Env;
  env_track : TrackReply;
  env_subscriptions : SubscriptionsReply;
  env_email_user : option string;     (* process.env.EMAIL_USER *)
  env_dev_code : option string        (* process.env.DEV_VERIFICATION_CODE *)
}.

Record World2 := {
  shop_cache : TokenCache;
  calls : list call
}.

Definition H (A : Type) : Type := Env2 -> World2 -> outcome A * World2.

Definition hret {A} (a : A) : H A := fun _ w => (Returns a, w).

Definition hbind {A B} (m : H A) (k : A -> H B) : H B :=
  fun e w =>
    match m e w with
    | (Returns a, w') => k a e w'
    | (Throws err, w') => (Throws err, w')
    end.

Definition hthrow {A} (err : string) : H A := fun _ w => (Throws err, w).

Definition htry {A} (m : H A) (h : string -> H A) : H A :=
  fun e w =>
    match m e w with
    | (Returns a, w') => (Returns a, w')
    | (Throws err, w') => h err e w'
    end.

Definition hasks {A} (f : Env2 -> A) : H A := fun e w => (Returns (f e), w).

Definition hemit (c : call) : H unit :=
  fun _ w => (Returns tt, {| shop_cache := shop_cache w; calls := calls w ++ [c] |}).

(** A computation of the order paths run here: on the same cache, its calls
    appended in order. *)
Definition lift {A} (m : M A) : H A :=
  fun e w =>
    let '(r, w') := m (env_shop e) {| cache := shop_cache w; trace := [] |} in
    (r, {| shop_cache := cache w'; calls := calls w ++ map Shop (trace w') |}).

Declare Scope ext_scope.
Delimit Scope ext_scope with ext.
Notation "x <~ m ;; k" := (hbind m (fun x => k))
  (at level 61, m at next level, right associativity) : ext_scope.
Notation "m ;;; k" := (hbind m (fun _ => k))
  (at level 61, right associativity) : ext_scope.

(** [await transporter.sendMail(mailOptions)]. *)
Definition sendMail (m : MailOptions) : H unit :=
  (hemit (SendMail m) ;;;
   sent <~ hasks (fun e => env_mail (env_shop e)) ;;
   if sent then hret tt else hthrow "sendMail failed")%ext.

Definition is_track (c : call) : bool :=
  match c with NetTrack _ _ => true | _ => false end.

Definition is_shop_login (c : call) : bool :=
  match c with Shop NetLogin => true | _ => false end.

Definition is_send (c : call) : bool :=
  match c with SendMail _ => true | _ => false end.

(** ** [GET /shiprocket/track/:shipmentId] *)

Definition track_shipment (shipmentId : string) : H Response :=
  htry
    (token <~ lift getShiprocketToken ;;
     if String.eqb shipmentId "" then
       hret {| status := 400; success := false;
               message := Some "Shipment ID is required"; fields := [] |}
     else
       hemit (NetTrack token shipmentId) ;;;
       reply <~ hasks env_track ;;
       match reply with
       | TrackRejected err => hthrow err
       | TrackData _ _ data =>
           hret {| status := 200; success := true; message := None;
                   fields := [("tracking", data)] |}
       end)%ext
    (fun error =>
       hret {| status := 500; success := false;
               message := Some "Error tracking shipment";
               fields := [("error", error)] |}).

(** ** [POST /verify-youtube-subscription] *)

Record YoutubeBody := {
  accessToken : jsval;
  channelId : jsval;
  devMode : jsval;
  verificationCode : jsval
}.

(** What the handler hands to [res.json]; [yt_isSubscribed] is [None] when
    the value is [undefined] (the property is then dropped). *)
Record YoutubeResponse := {
  yt_status : Z;
  yt_success : bool;
  yt_isSubscribed : option bool;
  yt_message : string;
  yt_error : option string
}.

(** [v === true]. *)
Definition is_true (v : jsval) : bool :=
  match v with JBool true => true | _ => false end.

(** [v === o] for a request value [v] and a string-or-undefined [o]. *)
Definition strict_eq_opt (v : jsval) (o : option string) : bool :=
  match v, o with
  | JStr s, Some s' => String.eqb s s'
  | JUndefined, None => true
  | _, _ => false
  end.

(** [items.some(item => item.snippet.resourceId.channelId === channelId)]:
    elements are visited in order up to the first match; reading a broken
    element throws. *)
Fixpoint some_channel (wanted : jsval) (items : list Subscription) : outcome bool :=
  match items with
  | [] => Returns false
  | SubBroken :: _ =>
      Throws "TypeError: Cannot read properties of undefined"
  | SubChannel c :: rest =>
      if strict_eq_opt wanted c then Returns true else some_channel wanted rest
  end.

Definition dev_bypass_response : YoutubeResponse :=
  {| yt_status := 200; yt_success := true; yt_isSubscribed := Some true;
     yt_message := "Development mode: Subscription verified! 10% discount applied.";
     yt_error := None |}.

Definition subscription_response (isSubscribed : option bool) : YoutubeResponse :=
  {| yt_status := 200; yt_success := true; yt_isSubscribed := isSubscribed;
     yt_message := match isSubscribed with
                   | Some true => "Subscription verified! 10% discount applied."
                   | _ => "Not subscribed to the channel."
                   end;
     yt_error := None |}.

Definition verify_youtube_subscription (body : YoutubeBody) : H YoutubeResponse :=
  (dev_code <~ hasks env_dev_code ;;
   if is_true (devMode body) && strict_eq_opt (verificationCode body) dev_code then
     hret dev_bypass_response
   else
     htry
       (hemit (NetSubscriptions (accessToken body)) ;;;
        reply <~ hasks env_subscriptions ;;
        match reply with
        | SubsRejected err => hthrow err
        | SubsData (Some error) _ =>
            hret {| yt_status := 400; yt_success := false; yt_isSubscribed := None;
                    yt_message := "Failed to verify subscription";
                    yt_error := Some error |}
        | SubsData None None => hret (subscription_response None)
        | SubsData None (Some items) =>
            match some_channel (channelId body) items with
            | Throws err => hthrow err
            | Returns b => hret (subscription_response (Some b))
            end
        end)
       (fun error =>
          hret {| yt_status := 500; yt_success := false; yt_isSubscribed := None;
                  yt_message := "Failed to verify YouTube subscription";
                  yt_error := Some error |}))%ext.

(** A subscription whose channel is [wanted]. *)
Definition is_channel (wanted : jsval) (s : Subscription) : bool :=
  match s with
  | SubChannel c => strict_eq_opt wanted c
  | SubBroken => false
  end.

Definition is_broken (s : Subscription) : bool :=
  match s with SubBroken => true | SubChannel _ => false end.

(** ** The order emails: [POST /send-order-confirmation] and
    [POST /send-abandoned-order-email] *)

(** The fields of [customerDetails] the greeting reads. *)
Record CustomerDetails := {
  firstName : uval;
  lastName : uval
}.

(** The body of the two requests; [None] is an absent or [null] object. *)
Record EmailBody := {
  customerEmail : uval;
  orderDetails : option OrderDetails;
  customerDetails : option CustomerDetails
}.

(** What tells the two handlers apart. *)
Record EmailKind := {
  subject_prefix : ustring;
  sent_message : string;
  failed_message : string
}.

Definition order_confirmation : EmailKind :=
  {| subject_prefix := lit "Order Confirmation #";
     sent_message := "Confirmation email sent successfully!";
     failed_message := "Failed to send confirmation email" |}.

Definition abandoned_order : EmailKind :=
  {| subject_prefix := lit "We noticed you didn't complete your order #";
     sent_message := "Abandoned order follow-up email sent successfully!";
     failed_message := "Failed to send abandoned order follow-up email" |}.

Definition email_required_response : Response :=
  {| status := 400; success := false;
     message := Some "Customer email is required"; fields := [] |}.

Section OrderEmails.

Variable number_to_string : float -> ustring.

(** The handler: the check of [customerEmail], then the subject, the product
    text and the greeting, built outside any [try] (a throw there leaves the
    request unanswered), then the send inside [try]/[catch]. *)
Definition send_order_email (kind : EmailKind) (body : EmailBody) : H Response :=
  if negb (u_truthy (customerEmail body)) then hret email_required_response
  else
    match orderDetails body with
    | None => hthrow "TypeError: Cannot read properties of undefined (reading 'orderNumber')"
    | Some od =>
        let emailSubject :=
          subject_prefix kind ++ u_to_string number_to_string (orderNumber od) in
        match productsContent number_to_string od with
        | Throws err => hthrow err
        | Returns _ =>
            match customerDetails body with
            | None => hthrow "TypeError: Cannot read properties of undefined (reading 'firstName')"
            | Some _ =>
                (user <~ hasks env_email_user ;;
                 htry
                   (sendMail {| mail_from := user;
                                mail_to := customerEmail body;
                                mail_cc := user;
                                mail_subject := emailSubject |} ;;;
                    hret {| status := 200; success := true;
                            message := Some (sent_message kind);
                            fields := [] |})
                   (fun error =>
                      hret {| status := 500; success := false;
                              message := Some (failed_message kind);
                              fields := [("error", error)] |}))%ext
            end
        end
    end.

Definition send_order_confirmation : EmailBody -> H Response :=
  send_order_email order_confirmation.

Definition send_abandoned_order_email : EmailBody -> H Response :=
  send_order_email abandoned_order.

(** A body the text of which can be built: both objects are present and the
    product text does not throw. *)
Definition email_buildable (body : EmailBody) : bool :=
  match orderDetails body, customerDetails body with
  | Some od, Some _ =>
      match productsContent number_to_string od with
      | Returns _ => true
      | Throws _ => false
      end
  | _, _ => false
  end.

End OrderEmails.

(** The world of the order paths a lifted computation starts from. *)
Definition base_world (w : World2) : World :=
  {| cache := shop_cache w; trace := [] |}.

(** A subscription that is well formed and is not the wanted channel. *)
Definition passes_over (wanted : jsval) (s : Subscription) : bool :=
  negb (is_broken s) && negb (is_channel wanted s).

Module ExtSamples.

Definition env2 (track : TrackReply) (subs : SubscriptionsReply)
  (dev_code : option string) : Env2 :=
  {| env_shop := Samples.env0;
     env_track := track;
     env_subscriptions := subs;
     env_email_user := Some "shop@example.com";
     env_dev_code := dev_code |}.

Definition cold_world2 : World2 := {| shop_cache := cold_cache; calls := [] |}.

Definition track_not_found : TrackReply :=
  TrackData false 404 "{message: No shipment found}".

Definition dev_body : YoutubeBody :=
  {| accessToken := JUndefined; channelId := JStr "UC_shop";
     devMode := JBool true; verificationCode := JUndefined |}.

Definition plain_body : YoutubeBody :=
  {| accessToken := JStr "ya29.token"; channelId := JStr "UC_shop";
     devMode := JUndefined; verificationCode := JUndefined |}.

Definition subs_two : SubscriptionsReply :=
  SubsData None (Some [SubChannel (Some "UC_other"); SubChannel (Some "UC_shop")]).

Definition subs_match_then_broken : SubscriptionsReply :=
  SubsData None
    (Some ([SubChannel (Some "UC_other")]
           ++ SubChannel (Some "UC_shop") :: [SubBroken])).

(** A stand-in for the runtime's number printing in the sample runs. *)
Definition print_number (x : float) : ustring :=
  if PrimFloat.eqb x 2%float then lit "2" else lit "499".

Definition jar : Product :=
  {| p_name := UStr (lit "Joint oil"); p_quantity := UNum 2%float;
     p_price := UNum 499%float |}.

Definition order1 : OrderDetails :=
  {| orderNumber := UStr (lit "A-1001");
     products := Some [Some jar];
     od_currency := UUndefined;
     od_productName := UUndefined;
     od_quantity := UUndefined |}.

Definition asha : CustomerDetails :=
  {| firstName := UStr (lit "Asha"); lastName := UStr (lit "Rao") |}.

Definition email_body : EmailBody :=
  {| customerEmail := UStr (lit "asha@example.com");
     orderDetails := Some order1;
     customerDetails := Some asha |}.

Definition email_body_without_order : EmailBody :=
  {| customerEmail := UStr (lit "asha@example.com");
     orderDetails := None;
     customerDetails := Some asha |}.

Definition empty_email_body : EmailBody :=
  {| customerEmail := UUndefined; orderDetails := None; customerDetails := None |}.

End ExtSamples.

(* ------------------------------------------------------------------------- *)
(** * Further notions for the payment handlers and the cache *)

(** The characters [digest("hex")] produces. *)
Definition is_lower_hex (c : ascii) : bool :=
  existsb (Ascii.eqb c) (list_ascii_of_string "0123456789abcdef").

(** The JSON number [n], for an integer [n] below 2^53. *)
Definition float_of_Z (n : Z) : float := PrimFloat.of_uint63 (Uint63.of_Z n).

(** The body of a request for [n] rupees. *)
Definition rupees (n : Z) : CreateOrderBody :=
  {| amount := float_of_Z n; currency := None; receipt := None; notes := None |}.

(** [amount * 100] is the float of [100 * n], for [n] rupees. *)
Definition exact_paise (n : Z) : bool :=
  PrimFloat.eqb (float_of_Z n * 100)%float (float_of_Z (100 * n))
  && is_integer (float_of_Z n * 100)%float.

(** [exact_paise] on [count] consecutive amounts from [n]. *)
Fixpoint exact_paise_from (count : nat) (n : Z) : bool :=
  match count with
  | O => true
  | S count' => if exact_paise n then exact_paise_from count' (n + 1) else false
  end.

(** The cache after consecutive calls of [getShiprocketToken]. *)
Fixpoint cache_after (c : TokenCache) (envs : list Env) : TokenCache :=
  match envs with
  | [] => c
  | e :: rest =>
      let '(_, c', _) := getToken_call e c in cache_after c' rest
  end.

(* ------------------------------------------------------------------------- *)
(** * The crypto model against published vectors *)

Example sha256_constants :
  List.length Crypto.K256 = 64%nat
  /\ nth 0 Crypto.K256 0 = 0x428a2f98 /\ nth 63 Crypto.K256 0 = 0xc67178f2
  /\ nth 0 Crypto.IV256 0 = 0x6a09e667 /\ nth 7 Crypto.IV256 0 = 0x5be0cd19.
Proof. vm_compute. repeat split. Qed.

Example sha256_abc :
  Crypto.sha256_hex "abc"
  = "ba7816bf8f01cfea414140de5dae2223b00361a396177a9cb410ff61f20015ad".
Proof. vm_compute. reflexivity. Qed.

Example sha256_empty :
  Crypto.sha256_hex ""
  = "e3b0c44298fc1c149afbf4c8996fb92427ae41e4649b934ca495991b7852b855".
Proof. vm_compute. reflexivity. Qed.

Example hmac_sha256_fox :
  Crypto.hmac_sha256_hex "key" "The quick brown fox jumps over the lazy dog"
  = "f7bc83f430538424b13298e6aa6fb143ef4d59a14946175997479dbc2d1a3cd8".
Proof. vm_compute. reflexivity. Qed.

(** The vector of the specification: key "testsecret", message
    "order_ABC123|pay_XYZ789". *)
Example hmac_sha256_golden :
  Crypto.hmac_sha256_hex "testsecret" "order_ABC123|pay_XYZ789"
  = Samples.golden_signature.
Proof. vm_compute. reflexivity. Qed.

Example verify_payment_golden :
  is_authentic
    (verify_payment (Some "testsecret")
       (Samples.verify_body (Some Samples.golden_signature))) = true.
Proof. vm_compute. reflexivity. Qed.

Example decimal_sample : decimal Samples.t0 = "1700000000000".
Proof. vm_compute. reflexivity. Qed.

(* ------------------------------------------------------------------------- *)
(** * Basic facts about values *)

Lemma or_default_truthy (o : option string) (d : string) :
  opt_truthy o = true -> Some (or_default o d) = o.
Proof.
  destruct o as [s|]; cbn; [|discriminate].
  destruct (String.eqb s ""); cbn; [discriminate|reflexivity].
Qed.

Lemma opt_truthy_to_str (o : option string) :
  opt_truthy o = true -> o = Some (to_str o) /\ String.eqb (to_str o) "" = false.
Proof.
  destruct o as [s|]; cbn; [|discriminate].
  destruct (String.eqb s ""); cbn; [discriminate|auto].
Qed.

Lemma strict_eq_true (a : string) (b : option string) :
  strict_eq a b = true <-> b = Some a.
Proof.
  destruct b as [s|]; cbn.
  - rewrite String.eqb_eq. split; [intros ->; reflexivity | congruence].
  - split; discriminate.
Qed.


(* ------------------------------------------------------------------------- *)
(** * The credential cache: the two paths of [getShiprocketToken] *)

Lemma getShiprocketToken_hit (e : Env) (w : World) (tok : string) :
  cached_token (cache w) (env_now e) = Some tok ->
  getShiprocketToken e w = (Returns tok, w).
Proof. intros H. unfold_m. rewrite H. reflexivity. Qed.

Lemma getShiprocketToken_miss (e : Env) (w : World) :
  cached_token (cache w) (env_now e) = None ->
  getShiprocketToken e w =
    if login_ok (env_login e)
    then match env_login e with
         | LoginData _ token _ =>
             (Returns (to_str token), after_refresh w token (env_store_time e))
         | LoginRejected err => (Throws err, after_login w)
         end
    else (Throws (failure_message (env_login e)), after_login w).
Proof.
  intros H. unfold_m. rewrite H.
  destruct (env_login e) as [err | ok token msg]; cbn; [reflexivity|].
  destruct (opt_truthy token); reflexivity.
Qed.

Lemma cached_token_spec (c : TokenCache) (t : Z) (tok : string) :
  cached_token c t = Some tok <->
  shiprocketToken c = Some tok /\ tok <> "" /\
  exists expiry, tokenExpiryTime c = Some expiry /\ t < expiry.
Proof.
  unfold cached_token.
  destruct (shiprocketToken c) as [s|], (tokenExpiryTime c) as [x|];
    try (split; [discriminate | intros (? & ? & y & ? & ?); congruence]).
  destruct (String.eqb_spec s ""), (Z.ltb_spec t x); cbn;
    (split; [ try discriminate; intros [= <-]; repeat split; eauto
            | intros (Hs & Hne & y & Hy & Hlt) ]);
    try (injection Hs as <-); try (injection Hy as <-); try reflexivity;
    try congruence; try lia.
Qed.

Lemma cached_token_in_cache (c : TokenCache) (t : Z) (tok : string) :
  cached_token c t = Some tok -> shiprocketToken c = Some tok.
Proof. intros H. apply cached_token_spec in H. tauto. Qed.


Lemma cache_valid_cached (c : TokenCache) (t : Z) :
  cache_valid c t = false <-> cached_token c t = None.
Proof.
  unfold cache_valid. destruct (cached_token c t); split; congruence.
Qed.

(** The cache a refresh leaves serves its token at any time before the new
    expiry. *)
Lemma cached_token_after_refresh (w : World) (token : option string) (issued t : Z) :
  opt_truthy token = true ->
  t < add_hours issued TOKEN_VALIDITY_HOURS ->
  cached_token (cache (after_refresh w token issued)) t = Some (to_str token).
Proof.
  intros Htok Hlt. apply opt_truthy_to_str in Htok as [Heq Hne].
  unfold cached_token; cbn. rewrite Heq at 1. rewrite Hne; cbn.
  destruct (Z.ltb_spec t (add_hours issued TOKEN_VALIDITY_HOURS)); [reflexivity|lia].
Qed.

Lemma add_hours_validity (t : Z) :
  add_hours t TOKEN_VALIDITY_HOURS = t + TOKEN_VALIDITY_HOURS * HOUR_MS.
Proof. reflexivity. Qed.

Lemma stamp_before_expiry (t : Z) : t < add_hours t TOKEN_VALIDITY_HOURS.
Proof. unfold add_hours, TOKEN_VALIDITY_HOURS, HOUR_MS. lia. Qed.

(** The cache stays well formed through any call, whatever the vendor
    answers. *)
Lemma getShiprocketToken_preserves_wf (e : Env) (w : World) :
  cache_wf (cache w) -> cache_wf (cache (snd (getShiprocketToken e w))).
Proof.
  intros Hwf.
  destruct (cached_token (cache w) (env_now e)) as [tok|] eqn:Hc.
  - rewrite (getShiprocketToken_hit e w tok Hc). exact Hwf.
  - rewrite (getShiprocketToken_miss e w Hc).
    destruct (login_ok (env_login e)) eqn:Hok; [|exact Hwf].
    destruct (env_login e) as [err|ok token m]; [discriminate|].
    cbn in Hok. apply opt_truthy_to_str in Hok as [Heq Hne].
    unfold cache_wf; cbn. rewrite Heq.
    intros Hempty. rewrite Hempty in Hne. discriminate.
Qed.

Lemma cold_cache_wf : cache_wf cold_cache.
Proof. exact I. Qed.

(* ------------------------------------------------------------------------- *)
(** * Claims about the credential cache *)

(** C4. A call made while a credential is cached (a non-empty token with an
    expiry) and the clock is strictly before the expiry returns the cached
    token and leaves the world as it was: no login call or any other outbound
    call is recorded, and token and expiry are unchanged. *)
Theorem getShiprocketToken_cache_hit (e : Env) (w : World) (tok : string) (expiry : Z) :
  shiprocketToken (cache w) = Some tok ->
  tok <> "" ->
  tokenExpiryTime (cache w) = Some expiry ->
  env_now e < expiry ->
  exists w',
    getShiprocketToken e w = (Returns tok, w')
    /\ trace w' = trace w
    /\ cache w' = cache w.
Proof.
  intros Htok Hne Hexp Hlt. exists w. split; [|split; reflexivity].
  apply getShiprocketToken_hit, cached_token_spec. eauto 6.
Qed.

Lemma getShiprocketToken_cache_hit_witness :
  exists w',
    getShiprocketToken (Samples.env_at (Samples.t0 + HOUR_MS) Samples.login_tok2)
      Samples.warm_world
    = (Returns "tok_1", w')
    /\ trace w' = trace Samples.warm_world
    /\ cache w' = cache Samples.warm_world.
Proof.
  apply (getShiprocketToken_cache_hit
           (Samples.env_at (Samples.t0 + HOUR_MS) Samples.login_tok2)
           Samples.warm_world "tok_1"
           (add_hours (Samples.t0 + 250) TOKEN_VALIDITY_HOURS)).
  - reflexivity.
  - discriminate.
  - reflexivity.
  - vm_compute. reflexivity.
Defined.






(** C10. After a call that returns a token, the cache holds that token with
    a non-null expiry, the clock reading at which the call returned is
    strictly before that expiry, and so a call entered at that reading is
    served from the cache: it returns the same token and changes nothing. *)
Theorem getShiprocketToken_success_leaves_valid_cache
  (e : Env) (w w' : World) (tok : string) :
  getShiprocketToken e w = (Returns tok, w') ->
  shiprocketToken (cache w') = Some tok
  /\ (exists expiry, tokenExpiryTime (cache w') = Some expiry
                     /\ return_time e (cache w) < expiry)
  /\ cache_valid (cache w') (return_time e (cache w)) = true
  /\ (forall e', env_now e' = return_time e (cache w) ->
        getShiprocketToken e' w' = (Returns tok, w')).
Proof.
  intros Hrun.
  assert (Hhit : cached_token (cache w') (return_time e (cache w)) = Some tok).
  { unfold return_time, cache_valid.
    destruct (cached_token (cache w) (env_now e)) as [tok'|] eqn:Hc.
    - rewrite (getShiprocketToken_hit e w tok' Hc) in Hrun.
      injection Hrun as <- <-. exact Hc.
    - rewrite (getShiprocketToken_miss e w Hc) in Hrun.
      destruct (login_ok (env_login e)) eqn:Hok; [|discriminate].
      destruct (env_login e) as [err|ok token m]; [discriminate|].
      injection Hrun as <- <-.
      apply cached_token_after_refresh; [exact Hok | apply stamp_before_expiry]. }
  pose proof Hhit as Hspec. apply cached_token_spec in Hspec as (Hs & _ & Hx).
  repeat split; auto.
  - unfold cache_valid. rewrite Hhit. reflexivity.
  - intros e' He'. apply getShiprocketToken_hit. rewrite He'. exact Hhit.
Qed.

Lemma getShiprocketToken_success_leaves_valid_cache_witness :
  cache_valid (cache (snd (getShiprocketToken Samples.env0 cold_world)))
    (return_time Samples.env0 (cache cold_world)) = true.
Proof.
  exact (proj1 (proj2 (proj2
    (getShiprocketToken_success_leaves_valid_cache Samples.env0 cold_world
       (snd (getShiprocketToken Samples.env0 cold_world)) "tok_1" eq_refl)))).
Defined.





(* ------------------------------------------------------------------------- *)
(** * Shipment order creation with a missing field *)

Lemma sendShiprocketFailureEmail_events (subject : string) (d : OrderData)
  (e : Env) (w : World) :
  exists sent,
    sendShiprocketFailureEmail subject d e w
    = (Returns sent,
       {| cache := cache w; trace := trace w ++ mail_events subject d |}).
Proof.
  unfold sendShiprocketFailureEmail, mail_events. unfold_m.
  destruct (has_null_item (order_items d)).
  - exists false. rewrite app_nil_r. destruct w; reflexivity.
  - cbn. destruct (env_mail e); eexists; reflexivity.
Qed.

Lemma missing_pincode_is_missing_required (d : OrderData) :
  truthy (billing_pincode d) = false -> missing_required d = true.
Proof.
  intros H. unfold missing_required. rewrite H. cbn.
  repeat rewrite orb_true_r. reflexivity.
Qed.






(* ------------------------------------------------------------------------- *)
(** * Razorpay order creation *)

Lemma create_order_run (body : CreateOrderBody) (e : Env) (w : World) :
  create_order body e w
  = (Returns
       match env_gateway e (order_options body (env_now e)) with
       | GatewayOrder order =>
           {| status := 200; success := true; message := None;
              fields := ("order", order) :: field "key" (env_key_id e) |}
       | GatewayRejected err =>
           {| status := 500; success := false;
              message := Some "Failed to create order";
              fields := [("error", err)] |}
       end,
     {| cache := cache w;
        trace := trace w ++ [GatewayCreateOrder (order_options body (env_now e))] |}).
Proof.
  unfold create_order. unfold_m. cbn [cache trace].
  destruct (env_gateway e (order_options body (env_now e))); reflexivity.
Qed.

(** C8 at the amount 19.99: the handler hands the gateway the binary64
    product [19.99 * 100], which is 1998.9999999999998: not 1999 and not an
    integer. Nothing rounds it. *)
Theorem create_order_19_99_not_rounded (e : Env) (w : World) :
  trace (snd (create_order Samples.body_19_99 e w))
  = trace w ++ [GatewayCreateOrder (order_options Samples.body_19_99 (env_now e))]
  /\ opt_amount (order_options Samples.body_19_99 (env_now e))
     = 1998.9999999999998%float
  /\ PrimFloat.ltb (opt_amount (order_options Samples.body_19_99 (env_now e)))
       1999%float = true
  /\ is_integer (opt_amount (order_options Samples.body_19_99 (env_now e))) = false.
Proof.
  rewrite create_order_run. repeat split.
Qed.



(* ------------------------------------------------------------------------- *)
(** * Payment verification *)

Lemma verify_payment_run (secret : option string) (body : VerifyBody) :
  verify_payment secret body
  = match secret with
    | None => error_response "ERR_INVALID_ARG_TYPE"
    | Some key =>
        if strict_eq (Crypto.hmac_sha256_hex key (signed_message body))
             (razorpay_signature body)
        then authentic_response body
        else not_authentic_response
    end.
Proof. destruct secret; reflexivity. Qed.

(** An absent [razorpay_order_id] is not an error: the handler signs the
    text "undefined|pay_XYZ789", and a client that signed that text is
    answered as authentic, the echo lacking [orderId]. *)
Example verify_payment_absent_order_id :
  verify_payment (Some "testsecret")
    {| razorpay_order_id := None;
       razorpay_payment_id := Some "pay_XYZ789";
       razorpay_signature :=
         Some "f5e82f2c9130a8220ba2ca855b5ea5f0465280bc199fc917b88138645578e74c" |}
  = {| status := 200; success := true;
       message := Some "Payment verification successful";
       fields := [("paymentId", "pay_XYZ789")] |}.
Proof. vm_compute. reflexivity. Qed.

(** C1 (amended). With the three properties present and the secret
    configured, the answer is the authentic one exactly when the hex
    HMAC-SHA256 of [orderId + "|" + paymentId] under the secret is the client's
    signature, character for character; the authentic answer echoes
    [orderId] and [paymentId]; the other answer carries only the failure
    message. *)
Theorem verify_payment_authentic_iff (key o p s : string) :
  (is_authentic
     (verify_payment (Some key)
        {| razorpay_order_id := Some o; razorpay_payment_id := Some p;
           razorpay_signature := Some s |}) = true
   <-> Crypto.hmac_sha256_hex key (o ++ "|" ++ p)%string = s)
  /\ (Crypto.hmac_sha256_hex key (o ++ "|" ++ p)%string = s ->
      verify_payment (Some key)
        {| razorpay_order_id := Some o; razorpay_payment_id := Some p;
           razorpay_signature := Some s |}
      = {| status := 200; success := true;
           message := Some "Payment verification successful";
           fields := [("orderId", o); ("paymentId", p)] |})
  /\ (Crypto.hmac_sha256_hex key (o ++ "|" ++ p)%string <> s ->
      verify_payment (Some key)
        {| razorpay_order_id := Some o; razorpay_payment_id := Some p;
           razorpay_signature := Some s |}
      = not_authentic_response).
Proof.
  rewrite verify_payment_run. unfold signed_message, strict_eq.
  cbn [razorpay_order_id razorpay_payment_id razorpay_signature to_str].
  destruct (String.eqb_spec (Crypto.hmac_sha256_hex key (o ++ "|" ++ p)%string) s)
    as [Heq|Hne].
  - repeat split; auto. intros Hne. contradiction.
  - repeat split; auto; try discriminate. intros Heq. contradiction.
Qed.

(** C1 as stated fails on the echo: the answer to a mismatching signature
    has neither [orderId] nor [paymentId]. *)
Lemma verify_payment_mismatch_has_no_echo :
  verify_payment (Some "testsecret") (Samples.verify_body (Some "deadbeef"))
  = not_authentic_response
  /\ lookup_field "orderId"
       (fields (verify_payment (Some "testsecret")
                  (Samples.verify_body (Some "deadbeef")))) = None
  /\ lookup_field "paymentId"
       (fields (verify_payment (Some "testsecret")
                  (Samples.verify_body (Some "deadbeef")))) = None.
Proof. vm_compute. repeat split. Qed.



(* ------------------------------------------------------------------------- *)
(** * The authentication test endpoint *)

Lemma getShiprocketToken_available (e : Env) (w : World) :
  token_available e w = true ->
  exists tok w',
    getShiprocketToken e w = (Returns tok, w')
    /\ cached_token (cache w') (return_time e (cache w)) = Some tok
    /\ (w' = w \/ trace w' = trace w ++ [NetLogin]).
Proof.
  unfold token_available, cache_valid, return_time.
  destruct (cached_token (cache w) (env_now e)) as [tok|] eqn:Hc; cbn [orb].
  - intros _. exists tok, w. rewrite (getShiprocketToken_hit e w tok Hc).
    unfold cache_valid. rewrite Hc. auto.
  - intros Hok. rewrite (getShiprocketToken_miss e w Hc), Hok.
    destruct (env_login e) as [err|ok token m]; [discriminate|].
    do 2 eexists. split; [reflexivity|]. unfold cache_valid. rewrite Hc. split.
    + apply cached_token_after_refresh; [exact Hok | apply stamp_before_expiry].
    + right. reflexivity.
Qed.

Lemma getShiprocketToken_unavailable (e : Env) (w : World) :
  token_available e w = false ->
  getShiprocketToken e w = (Throws (failure_message (env_login e)), after_login w).
Proof.
  unfold token_available. intros H. apply orb_false_iff in H as [Hc Hok].
  apply cache_valid_cached in Hc.
  rewrite (getShiprocketToken_miss e w Hc), Hok. reflexivity.
Qed.

(** X1. [GET /shiprocket/test-auth] answers 200 exactly when a token can be
    had (the cache serves one or the login reply carries one). The 200 answer
    reports the token and the expiry that are in the cache after the call, and
    that expiry is strictly later than the clock reading at which the token
    was returned. Otherwise the answer is 500 with the login's error message,
    and the cache is as it was. *)
Theorem shiprocket_test_auth_reports_cache (e : Env) (w : World) :
  exists r w',
    shiprocket_test_auth e w = (Returns r, w')
    /\ (at_status r = 200 <-> token_available e w = true)
    /\ (token_available e w = true ->
        at_success r = true
        /\ at_token r = shiprocketToken (cache w')
        /\ at_tokenExpiresAt r = tokenExpiryTime (cache w')
        /\ exists tok expiry,
             at_token r = Some tok /\ tok <> ""
             /\ at_tokenExpiresAt r = Some expiry
             /\ return_time e (cache w) < expiry)
    /\ (token_available e w = false ->
        r = {| at_status := 500; at_success := false;
               at_message := "Shiprocket authentication failed";
               at_tokenExpiresAt := None; at_token := None;
               at_error := Some (failure_message (env_login e)) |}
        /\ cache w' = cache w
        /\ trace w' = trace w ++ [NetLogin]).
Proof.
  unfold shiprocket_test_auth, try_catch, bind at 1.
  destruct (token_available e w) eqn:Hav.
  - destruct (getShiprocketToken_available e w Hav) as (tok & w' & Hrun & Hc & _).
    rewrite Hrun. unfold bind, get_cache, ret.
    do 2 eexists. split; [reflexivity|]. cbn [at_status at_success at_token at_tokenExpiresAt].
    apply cached_token_spec in Hc as (Hs & Hne & x & Hx & Hlt).
    split; [split; auto|]. split; [|discriminate].
    intros _. rewrite Hs, Hx. repeat split. eauto 8.
  - rewrite (getShiprocketToken_unavailable e w Hav). unfold ret.
    do 2 eexists. split; [reflexivity|]. cbn [at_status].
    split; [split; discriminate|]. split; [discriminate|].
    intros _. repeat split.
Qed.

(* ------------------------------------------------------------------------- *)
(** * Shipment order creation, every path *)

Lemma sendShiprocketFailureEmail_notified (subject : string) (d : OrderData)
  (e : Env) (w : World) :
  exists sent, sendShiprocketFailureEmail subject d e w = (Returns sent, notified subject d w).
Proof. apply sendShiprocketFailureEmail_events. Qed.

Lemma shiprocket_create_order_run (d : OrderData) (e : Env) (w : World) :
  shiprocket_create_order d e w = create_order_paths d e (getShiprocketToken e w).
Proof.
  unfold shiprocket_create_order, create_order_paths, try_catch at 1, bind at 1.
  destruct (getShiprocketToken e w) as [[token|err] w1].
  - destruct (missing_required d).
    + destruct (sendShiprocketFailureEmail_notified
                  "Shiprocket Order Creation Failed - Missing Data" d e w1)
        as [sent Hs].
      unfold bind, ret. rewrite Hs. reflexivity.
    + unfold bind at 1, emit. unfold bind at 1, asks.
      destruct (env_shipment e) as [err|ok st data].
      * unfold throw.
        destruct (sendShiprocketFailureEmail_notified
                    "Shiprocket Order Creation Failed - Exception" d e
                    (posted token d w1)) as [sent Hs].
        unfold bind, ret. unfold posted in Hs. rewrite Hs. reflexivity.
      * destruct ok; [reflexivity|].
        destruct (sendShiprocketFailureEmail_notified
                    "Shiprocket Order Creation Failed - API Error" d e
                    (posted token d w1)) as [sent Hs].
        unfold bind, ret. unfold posted in Hs. rewrite Hs. reflexivity.
  - destruct (sendShiprocketFailureEmail_notified
                "Shiprocket Order Creation Failed - Exception" d e w1)
      as [sent Hs].
    unfold bind, ret. rewrite Hs. reflexivity.
Qed.

(** The three ways the handler's opening call of [getShiprocketToken] ends. *)
Lemma acquire_cases (e : Env) (w : World) :
  (exists tok,
      getShiprocketToken e w = (Returns tok, w)
      /\ token_available e w = true
      /\ login_events e w = []
      /\ shiprocketToken (cache w) = Some tok)
  \/ (exists tok,
        getShiprocketToken e w
        = (Returns tok, after_refresh w (Some tok) (env_store_time e))
        /\ token_available e w = true
        /\ login_events e w = [NetLogin])
  \/ (getShiprocketToken e w = (Throws (failure_message (env_login e)), after_login w)
      /\ token_available e w = false
      /\ login_events e w = [NetLogin]).
Proof.
  unfold token_available, login_events, cache_valid.
  destruct (cached_token (cache w) (env_now e)) as [tok|] eqn:Hc; cbn [orb].
  - left. exists tok. rewrite (getShiprocketToken_hit e w tok Hc).
    repeat split. eapply cached_token_in_cache; eauto.
  - rewrite (getShiprocketToken_miss e w Hc).
    destruct (login_ok (env_login e)) eqn:Hok.
    + right; left. destruct (env_login e) as [err|ok token m]; [discriminate|].
      cbn in Hok. apply opt_truthy_to_str in Hok as [Heq _].
      exists (to_str token). rewrite <- Heq. auto.
    + right; right. auto.
Qed.

Lemma count_mail_events_network (p : event -> bool) (subject : string) (d : OrderData) :
  p (MailAttempt subject) = false -> count p (mail_events subject d) = 0%nat.
Proof.
  intros Hp. unfold mail_events, count.
  destruct (has_null_item (order_items d)); cbn; [reflexivity|].
  rewrite Hp. reflexivity.
Qed.

Ltac open_worlds :=
  unfold notified, posted, after_refresh, after_login; cbn [trace cache];
  rewrite <- ?app_assoc.







Lemma getShiprocketToken_ignores_mail (b : bool) (e : Env) (w : World) :
  getShiprocketToken (with_mail b e) w = getShiprocketToken e w.
Proof.
  destruct (cached_token (cache w) (env_now e)) as [tok|] eqn:Hc.
  - rewrite (getShiprocketToken_hit e w tok Hc).
    apply getShiprocketToken_hit. exact Hc.
  - rewrite (getShiprocketToken_miss e w Hc).
    rewrite (getShiprocketToken_miss (with_mail b e) w Hc). reflexivity.
Qed.

(** X6. The notification is best effort: whether the mail transport accepts
    or rejects the message changes nothing in the handler's answer, in the
    cache it leaves or in the calls it made. *)
Theorem shiprocket_create_order_ignores_mail_failure
  (b : bool) (d : OrderData) (e : Env) (w : World) :
  shiprocket_create_order d (with_mail b e) w = shiprocket_create_order d e w.
Proof.
  rewrite !shiprocket_create_order_run, getShiprocketToken_ignores_mail.
  reflexivity.
Qed.

(** X7. One request makes at most one login and at most one call to the
    order endpoint (nothing is retried), the login first; a call to the order
    endpoint is made only for a body that passes the validation, carries that
    body, and bears the token that is in the cache when the handler ends. *)
Theorem shiprocket_create_order_calls (d : OrderData) (e : Env) (w : World) :
  exists r w' rest,
    shiprocket_create_order d e w = (Returns r, w')
    /\ trace w' = trace w ++ login_events e w ++ rest
    /\ count is_login (login_events e w) = (if cache_valid (cache w) (env_now e)
                                            then 0%nat else 1%nat)
    /\ count is_login rest = 0%nat
    /\ (count is_shipment_call rest <= 1)%nat
    /\ (forall tok body, In (NetCreateShipment tok body) rest ->
          body = d /\ missing_required d = false
          /\ shiprocketToken (cache w') = Some tok).
Proof.
  rewrite shiprocket_create_order_run. unfold create_order_paths.
  assert (Hlog : count is_login (login_events e w)
                 = if cache_valid (cache w) (env_now e) then 0%nat else 1%nat)
    by (unfold login_events; destruct (cache_valid _ _); reflexivity).
  destruct (acquire_cases e w) as [(tok & -> & _ & Hev & Htok)
                                  | [(tok & -> & _ & Hev) | (-> & _ & Hev)]];
    rewrite Hev in *.
  1, 2: destruct (missing_required d);
    [ | destruct (env_shipment e) as [err|[|] st data] ].
  all: do 3 eexists; (split; [reflexivity|]); open_worlds;
    (split; [reflexivity|]); (split; [exact Hlog|]);
    unfold mail_events; destruct (has_null_item (order_items d));
    (split; [reflexivity|]); (split; [cbn; lia|]);
    intros tok' body Hin; cbn in Hin;
    intuition (try discriminate).
  all: match goal with H : NetCreateShipment _ _ = NetCreateShipment _ _ |- _ =>
         injection H as <- <- end; auto.
Qed.

(* ------------------------------------------------------------------------- *)
(** * Shipment tracking *)

Lemma lift_getShiprocketToken_cases (e : Env2) (w : World2) :
  (exists tok c',
      lift getShiprocketToken e w
      = (Returns tok,
         {| shop_cache := c';
            calls := calls w ++ map Shop (login_events (env_shop e) (base_world w)) |})
      /\ token_available (env_shop e) (base_world w) = true
      /\ shiprocketToken c' = Some tok)
  \/ (lift getShiprocketToken e w
      = (Throws (failure_message (env_login (env_shop e))),
         {| shop_cache := shop_cache w; calls := calls w ++ [Shop NetLogin] |})
      /\ token_available (env_shop e) (base_world w) = false).
Proof.
  unfold lift. fold (base_world w).
  destruct (acquire_cases (env_shop e) (base_world w))
    as [(tok & -> & Hav & -> & Htok) | [(tok & -> & Hav & ->) | (-> & Hav & _)]].
  - left. exists tok, (shop_cache w). cbn. rewrite app_nil_r. auto.
  - left. do 2 eexists. cbn. split; [reflexivity|]. auto.
  - right. auto.
Qed.

(** X8. [GET /shiprocket/track/:shipmentId] never looks at the status of the
    vendor's reply: with a token at hand and a non-empty id, whatever body the
    tracking call returns, under a success or a failure status, is answered
    as [200 {success: true, tracking: data}], after one tracking call bearing
    the token that is in the cache when the handler ends. *)
Theorem track_shipment_passes_any_reply
  (shipmentId : string) (e : Env2) (w : World2)
  (ok : bool) (st : Z) (data : string) :
  shipmentId <> "" ->
  token_available (env_shop e) (base_world w) = true ->
  env_track e = TrackData ok st data ->
  exists tok w',
    track_shipment shipmentId e w
    = (Returns {| status := 200; success := true; message := None;
                  fields := [("tracking", data)] |}, w')
    /\ calls w' = calls w
                  ++ map Shop (login_events (env_shop e) (base_world w))
                  ++ [NetTrack tok shipmentId]
    /\ shiprocketToken (shop_cache w') = Some tok.
Proof.
  intros Hid Hav Hreply. unfold track_shipment, htry, hbind at 1.
  destruct (lift_getShiprocketToken_cases e w)
    as [(tok & c' & -> & _ & Htok) | (_ & Hav')]; [|congruence].
  destruct (String.eqb_spec shipmentId ""); [contradiction|].
  unfold hbind, hemit, hasks, hret. rewrite Hreply. cbn [calls shop_cache].
  do 2 eexists. split; [reflexivity|]. cbn [calls shop_cache].
  rewrite <- app_assoc. auto.
Qed.

Lemma track_shipment_passes_any_reply_witness :
  exists tok w',
    track_shipment "SR-77"
      (ExtSamples.env2 ExtSamples.track_not_found (SubsRejected "") None)
      ExtSamples.cold_world2
    = (Returns {| status := 200; success := true; message := None;
                  fields := [("tracking", "{message: No shipment found}")] |}, w')
    /\ calls w' = calls ExtSamples.cold_world2
                  ++ map Shop
                       (login_events
                          (env_shop (ExtSamples.env2 ExtSamples.track_not_found
                                       (SubsRejected "") None))
                          (base_world ExtSamples.cold_world2))
                  ++ [NetTrack tok "SR-77"]
    /\ shiprocketToken (shop_cache w') = Some tok.
Proof.
  apply (track_shipment_passes_any_reply "SR-77"
           (ExtSamples.env2 ExtSamples.track_not_found (SubsRejected "") None)
           ExtSamples.cold_world2 false 404 "{message: No shipment found}").
  - discriminate.
  - reflexivity.
  - reflexivity.
Defined.


(* ------------------------------------------------------------------------- *)
(** * YouTube subscription check *)

Lemma some_channel_clean (wanted : jsval) (items : list Subscription) :
  forallb (fun s => negb (is_broken s)) items = true ->
  some_channel wanted items = Returns (existsb (is_channel wanted) items).
Proof.
  induction items as [|[|c] rest IH]; cbn; [reflexivity|discriminate|].
  intros H. destruct (strict_eq_opt wanted c); [reflexivity|]. auto.
Qed.

Lemma some_channel_prefix (wanted : jsval) (pre rest : list Subscription) :
  forallb (passes_over wanted) pre = true ->
  some_channel wanted (pre ++ rest) = some_channel wanted rest.
Proof.
  induction pre as [|[|c] pre IH]; cbn; [reflexivity|discriminate|].
  unfold passes_over at 1; cbn.
  destruct (strict_eq_opt wanted c); cbn; [discriminate|]. auto.
Qed.

Lemma verify_youtube_subscription_fetch (body : YoutubeBody) (e : Env2) (w : World2) :
  is_true (devMode body) && strict_eq_opt (verificationCode body) (env_dev_code e)
  = false ->
  verify_youtube_subscription body e w
  = (Returns
       match env_subscriptions e with
       | SubsRejected err =>
           {| yt_status := 500; yt_success := false; yt_isSubscribed := None;
              yt_message := "Failed to verify YouTube subscription";
              yt_error := Some err |}
       | SubsData (Some error) _ =>
           {| yt_status := 400; yt_success := false; yt_isSubscribed := None;
              yt_message := "Failed to verify subscription";
              yt_error := Some error |}
       | SubsData None None => subscription_response None
       | SubsData None (Some items) =>
           match some_channel (channelId body) items with
           | Returns b => subscription_response (Some b)
           | Throws err =>
               {| yt_status := 500; yt_success := false; yt_isSubscribed := None;
                  yt_message := "Failed to verify YouTube subscription";
                  yt_error := Some err |}
           end
       end,
     {| shop_cache := shop_cache w;
        calls := calls w ++ [NetSubscriptions (accessToken body)] |}).
Proof.
  intros Hno. unfold verify_youtube_subscription, hbind at 1, hasks at 1.
  rewrite Hno. unfold htry, hbind, hemit, hasks, hret, hthrow.
  destruct (env_subscriptions e) as [err|[error|] [items|]]; try reflexivity.
  destruct (some_channel (channelId body) items); reflexivity.
Qed.


(** X11. When [DEV_VERIFICATION_CODE] is not configured, a request with
    [devMode: true] and no [verificationCode] takes the development bypass
    ([undefined === undefined]): it is answered as subscribed, whatever the
    access token and channel, and YouTube is not called. *)
Theorem verify_youtube_subscription_unset_code_bypass
  (body : YoutubeBody) (e : Env2) (w : World2) :
  env_dev_code e = None ->
  devMode body = JBool true ->
  verificationCode body = JUndefined ->
  verify_youtube_subscription body e w = (Returns dev_bypass_response, w)
  /\ yt_isSubscribed dev_bypass_response = Some true.
Proof.
  intros Hcode Hdev Hver.
  unfold verify_youtube_subscription, hbind, hasks.
  rewrite Hcode, Hdev, Hver. split; reflexivity.
Qed.

Lemma verify_youtube_subscription_unset_code_bypass_witness :
  verify_youtube_subscription ExtSamples.dev_body
    (ExtSamples.env2 (TrackRejected "") (SubsRejected "") None)
    ExtSamples.cold_world2
  = (Returns dev_bypass_response, ExtSamples.cold_world2)
  /\ yt_isSubscribed dev_bypass_response = Some true.
Proof.
  apply (verify_youtube_subscription_unset_code_bypass ExtSamples.dev_body
           (ExtSamples.env2 (TrackRejected "") (SubsRejected "") None)
           ExtSamples.cold_world2); reflexivity.
Defined.

(** X12. Outside the bypass, when YouTube returns a list of subscriptions
    without an error and every element has a [snippet.resourceId], the answer
    is 200 and [isSubscribed] is true exactly when some element's channel id
    is strictly equal to the requested one; the empty list gives [false]. *)
Theorem verify_youtube_subscription_exists
  (body : YoutubeBody) (e : Env2) (w : World2) (items : list Subscription) :
  is_true (devMode body) && strict_eq_opt (verificationCode body) (env_dev_code e)
  = false ->
  env_subscriptions e = SubsData None (Some items) ->
  forallb (fun s => negb (is_broken s)) items = true ->
  exists w',
    verify_youtube_subscription body e w
    = (Returns (subscription_response
                  (Some (existsb (is_channel (channelId body)) items))), w')
    /\ (existsb (is_channel (channelId body)) items = true <->
        exists c, In (SubChannel c) items /\ strict_eq_opt (channelId body) c = true).
Proof.
  intros Hb Hreply Hclean.
  rewrite (verify_youtube_subscription_fetch body e w Hb), Hreply.
  rewrite (some_channel_clean _ _ Hclean).
  eexists. split; [reflexivity|].
  rewrite existsb_exists. split.
  - intros ([|c] & Hin & Hc); [discriminate|]. eauto.
  - intros (c & Hin & Hc). exists (SubChannel c). auto.
Qed.

Lemma verify_youtube_subscription_exists_witness :
  exists w',
    verify_youtube_subscription ExtSamples.plain_body
      (ExtSamples.env2 (TrackRejected "") ExtSamples.subs_two None)
      ExtSamples.cold_world2
    = (Returns (subscription_response (Some true)), w').
Proof.
  destruct (verify_youtube_subscription_exists ExtSamples.plain_body
              (ExtSamples.env2 (TrackRejected "") ExtSamples.subs_two None)
              ExtSamples.cold_world2
              [SubChannel (Some "UC_other"); SubChannel (Some "UC_shop")]
              eq_refl eq_refl eq_refl) as (w' & Hrun & _).
  exists w'. exact Hrun.
Defined.

(** X13. The scan of the subscriptions stops at the first match: after
    elements that are well formed and are other channels, a matching element
    gives "subscribed" whatever follows it, a malformed element included;
    a malformed element met before any match makes the handler answer 500. *)
Theorem verify_youtube_subscription_first_match_decides
  (body : YoutubeBody) (e : Env2) (w : World2)
  (pre post : list Subscription) (hit : Subscription) :
  is_true (devMode body) && strict_eq_opt (verificationCode body) (env_dev_code e)
  = false ->
  env_subscriptions e = SubsData None (Some (pre ++ hit :: post)) ->
  forallb (passes_over (channelId body)) pre = true ->
  exists r w',
    verify_youtube_subscription body e w = (Returns r, w')
    /\ (is_channel (channelId body) hit = true ->
        r = subscription_response (Some true))
    /\ (is_broken hit = true -> yt_status r = 500 /\ yt_success r = false).
Proof.
  intros Hb Hreply Hpre.
  rewrite (verify_youtube_subscription_fetch body e w Hb), Hreply.
  rewrite (some_channel_prefix _ _ _ Hpre).
  do 2 eexists. split; [reflexivity|].
  destruct hit as [|c]; cbn.
  - split; [discriminate|]. auto.
  - split; [|discriminate]. intros ->. reflexivity.
Qed.

Lemma verify_youtube_subscription_first_match_decides_witness :
  exists r w',
    verify_youtube_subscription ExtSamples.plain_body
      (ExtSamples.env2 (TrackRejected "") ExtSamples.subs_match_then_broken None)
      ExtSamples.cold_world2
    = (Returns r, w')
    /\ (is_channel (channelId ExtSamples.plain_body) (SubChannel (Some "UC_shop"))
        = true -> r = subscription_response (Some true))
    /\ (is_broken (SubChannel (Some "UC_shop")) = true ->
        yt_status r = 500 /\ yt_success r = false).
Proof.
  apply (verify_youtube_subscription_first_match_decides ExtSamples.plain_body
           (ExtSamples.env2 (TrackRejected "") ExtSamples.subs_match_then_broken None)
           ExtSamples.cold_world2
           [SubChannel (Some "UC_other")] [SubBroken]
           (SubChannel (Some "UC_shop"))); reflexivity.
Defined.

(* ------------------------------------------------------------------------- *)
(** * The product table of the order emails *)

Lemma cell_length (n : nat) (s : ustring) :
  List.length (substring0 n (padEnd n s)) = n.
Proof.
  unfold substring0, padEnd.
  rewrite length_firstn, length_app, repeat_length. lia.
Qed.

(** X14. [s.padEnd(n).substring(0, n)], the cell of the product table, is
    always exactly [n] code units long: a text of at most [n] units is kept
    and followed by spaces, a longer one is cut to its first [n] units. *)
Theorem cell_pads_or_cuts (n : nat) (s : ustring) :
  List.length (substring0 n (padEnd n s)) = n
  /\ ((List.length s <= n)%nat ->
      substring0 n (padEnd n s) = s ++ repeat SPACE (n - List.length s))
  /\ ((n <= List.length s)%nat ->
      substring0 n (padEnd n s) = firstn n s).
Proof.
  split; [apply cell_length|]. unfold substring0, padEnd. split; intros Hle.
  - rewrite firstn_all2; [reflexivity|].
    rewrite length_app, repeat_length. lia.
  - replace (n - List.length s)%nat with 0%nat by lia.
    cbn [repeat]. rewrite app_nil_r. reflexivity.
Qed.

Lemma name_cell_length (name : uval) (cell : ustring) :
  name_cell name = Returns cell -> List.length cell = 40%nat.
Proof.
  unfold name_cell. intros H.
  assert (Hs : exists s, Returns (substring0 40 (padEnd 40 s)) = Returns cell).
  { destruct (u_truthy name); [destruct name|]; try discriminate H; eauto. }
  destruct Hs as [s Hs].
  assert (Hc : cell = substring0 40 (padEnd 40 s)) by congruence.
  rewrite Hc. apply cell_length.
Qed.

Lemma table_row_length (nts : float -> ustring) (currency : uval)
  (product : option Product) (row : ustring) :
  table_row nts currency product = Returns row -> List.length row = 78%nat.
Proof.
  unfold table_row. destruct product as [p|]; [|discriminate].
  destruct (name_cell (p_name p)) as [name|] eqn:Hn; [|discriminate].
  intros H. apply name_cell_length in Hn.
  match type of H with Returns ?r = _ => assert (Hr : row = r) by congruence end.
  rewrite Hr.
  rewrite !length_app, Hn.
  unfold quantity_cell, price_cell. rewrite !cell_length. reflexivity.
Qed.

(** X15. Every product row of the text table has the same width whatever the
    name, quantity, price and currency are: 75 code units before its line
    break (columns of 40, 10 and 15 with their separators), while the rule
    and title lines of the table are 69 code units wide. *)
Theorem table_row_width (nts : float -> ustring) (currency : uval)
  (p : Product) (row : ustring) :
  table_row nts currency (Some p) = Returns row ->
  (exists name quantity price,
      row = lit "| " ++ name ++ lit " | " ++ quantity ++ lit " | " ++ price
            ++ lit " |" ++ line_break
      /\ List.length name = 40%nat
      /\ List.length quantity = 10%nat
      /\ List.length price = 15%nat)
  /\ List.length row = (75 + List.length line_break)%nat
  /\ List.length table_rule = 69%nat
  /\ List.length table_title = 69%nat.
Proof.
  intros Hrow. split; [|split; [|split; reflexivity]].
  - unfold table_row in Hrow.
    destruct (name_cell (p_name p)) as [name|] eqn:Hn; [|discriminate].
    exists name, (quantity_cell nts (p_quantity p)),
      (price_cell nts currency (p_price p)).
    split; [congruence|].
    split; [eapply name_cell_length; eauto|].
    unfold quantity_cell, price_cell. split; apply cell_length.
  - apply table_row_length in Hrow. rewrite Hrow. reflexivity.
Qed.

Lemma table_row_width_witness :
  List.length
    (lit "| " ++ substring0 40 (padEnd 40 (lit "Joint oil")) ++ lit " | "
     ++ quantity_cell ExtSamples.print_number (UNum 2%float) ++ lit " | "
     ++ price_cell ExtSamples.print_number UUndefined (UNum 499%float)
     ++ lit " |" ++ line_break)
  = (75 + List.length line_break)%nat.
Proof.
  exact (proj1 (proj2 (table_row_width ExtSamples.print_number UUndefined
                         ExtSamples.jar _ eq_refl))).
Defined.




(* ------------------------------------------------------------------------- *)
(** * The order emails *)

(** X17. Both order-email handlers check [customerEmail] before they read
    anything else: when it is falsy the answer is 400 "Customer email is
    required" and nothing is sent, also when [orderDetails] or
    [customerDetails] are absent. *)
Theorem send_order_email_requires_address
  (nts : float -> ustring) (kind : EmailKind) (body : EmailBody)
  (e : Env2) (w : World2) :
  u_truthy (customerEmail body) = false ->
  send_order_email nts kind body e w = (Returns email_required_response, w)
  /\ send_order_confirmation nts body e w = (Returns email_required_response, w)
  /\ send_abandoned_order_email nts body e w = (Returns email_required_response, w).
Proof.
  intros H. unfold send_order_confirmation, send_abandoned_order_email,
    send_order_email. rewrite H. repeat split.
Qed.

Lemma send_order_email_requires_address_witness :
  send_order_email ExtSamples.print_number order_confirmation
    ExtSamples.empty_email_body
    (ExtSamples.env2 (TrackRejected "") (SubsRejected "") None)
    ExtSamples.cold_world2
  = (Returns email_required_response, ExtSamples.cold_world2).
Proof.
  exact (proj1 (send_order_email_requires_address ExtSamples.print_number
                  order_confirmation ExtSamples.empty_email_body
                  (ExtSamples.env2 (TrackRejected "") (SubsRejected "") None)
                  ExtSamples.cold_world2 eq_refl)).
Defined.

(** X18. With a [customerEmail], a body whose text cannot be built
    ([orderDetails] or [customerDetails] absent, or a product row that
    throws) makes the handler throw outside its [try] block: it produces no
    answer and makes no call. *)
Theorem send_order_email_throws_unanswered
  (nts : float -> ustring) (kind : EmailKind) (body : EmailBody)
  (e : Env2) (w : World2) :
  u_truthy (customerEmail body) = true ->
  email_buildable nts body = false ->
  exists err, send_order_email nts kind body e w = (Throws err, w).
Proof.
  intros Hmail Hbuild. unfold send_order_email, email_buildable in *.
  rewrite Hmail. cbn [negb].
  destruct (orderDetails body) as [od|]; [|unfold hthrow; eauto].
  destruct (productsContent nts od) as [text|err]; [|unfold hthrow; eauto].
  destruct (customerDetails body); [discriminate|unfold hthrow; eauto].
Qed.

Lemma send_order_email_throws_unanswered_witness :
  exists err,
    send_order_email ExtSamples.print_number order_confirmation
      ExtSamples.email_body_without_order
      (ExtSamples.env2 (TrackRejected "") (SubsRejected "") None)
      ExtSamples.cold_world2
    = (Throws err, ExtSamples.cold_world2).
Proof.
  apply (send_order_email_throws_unanswered ExtSamples.print_number
           order_confirmation ExtSamples.email_body_without_order
           (ExtSamples.env2 (TrackRejected "") (SubsRejected "") None)
           ExtSamples.cold_world2); reflexivity.
Defined.

(** X19. With a [customerEmail] and a body whose text can be built, the
    handler attempts exactly one message: to the customer, from and in copy
    to [EMAIL_USER], with the subject made of the handler's prefix and the
    order number. It answers 200 when the transport accepts the message and
    500 with the handler's failure text when it does not. *)
Theorem send_order_email_sends_once
  (nts : float -> ustring) (kind : EmailKind) (body : EmailBody)
  (e : Env2) (w : World2) :
  u_truthy (customerEmail body) = true ->
  email_buildable nts body = true ->
  exists od r w',
    orderDetails body = Some od
    /\ send_order_email nts kind body e w = (Returns r, w')
    /\ shop_cache w' = shop_cache w
    /\ calls w' = calls w
                  ++ [SendMail {| mail_from := env_email_user e;
                                  mail_to := customerEmail body;
                                  mail_cc := env_email_user e;
                                  mail_subject :=
                                    subject_prefix kind
                                    ++ u_to_string nts (orderNumber od) |}]
    /\ (env_mail (env_shop e) = true ->
        r = {| status := 200; success := true;
               message := Some (sent_message kind); fields := [] |})
    /\ (env_mail (env_shop e) = false ->
        status r = 500 /\ success r = false
        /\ message r = Some (failed_message kind)).
Proof.
  intros Hmail Hbuild. unfold send_order_email, email_buildable in *.
  rewrite Hmail. cbn [negb].
  destruct (orderDetails body) as [od|]; [|discriminate].
  destruct (customerDetails body); [|discriminate].
  destruct (productsContent nts od) as [text|err]; [|discriminate].
  exists od. unfold hbind at 1, hasks at 1, htry, sendMail, hbind, hemit, hasks.
  cbn [calls shop_cache].
  destruct (env_mail (env_shop e)); do 2 eexists;
    (split; [reflexivity|]); (split; [reflexivity|]);
    cbn [calls shop_cache]; repeat split; auto; discriminate.
Qed.

Lemma send_order_email_sends_once_witness :
  exists od r w',
    orderDetails ExtSamples.email_body = Some od
    /\ send_order_email ExtSamples.print_number abandoned_order
         ExtSamples.email_body
         (ExtSamples.env2 (TrackRejected "") (SubsRejected "") None)
         ExtSamples.cold_world2
       = (Returns r, w')
    /\ status r = 200.
Proof.
  destruct (send_order_email_sends_once ExtSamples.print_number abandoned_order
              ExtSamples.email_body
              (ExtSamples.env2 (TrackRejected "") (SubsRejected "") None)
              ExtSamples.cold_world2 eq_refl eq_refl)
    as (od & r & w' & Hod & Hrun & _ & _ & Hok & _).
  exists od, r, w'. split; [exact Hod|]. split; [exact Hrun|].
  rewrite (Hok eq_refl). reflexivity.
Defined.

(* ------------------------------------------------------------------------- *)
(** * The signature's format *)

Lemma length_bytes_of_words (ws : list Z) :
  List.length (flat_map Crypto.bytes_of_word ws) = (4 * List.length ws)%nat.
Proof. induction ws as [|w ws IH]; cbn [flat_map List.length app]; [reflexivity|]. cbn. lia. Qed.

Lemma length_compress (h block : list Z) :
  List.length h = 8%nat -> List.length (Crypto.compress h block) = 8%nat.
Proof.
  intros Hh. unfold Crypto.compress.
  rewrite length_map, length_combine, Hh. reflexivity.
Qed.

Lemma length_process_blocks (n : nat) :
  forall h ws, List.length h = 8%nat ->
               List.length (Crypto.process_blocks n h ws) = 8%nat.
Proof.
  induction n as [|n IH]; intros h ws Hh; cbn [Crypto.process_blocks]; [exact Hh|].
  apply IH, length_compress, Hh.
Qed.

Lemma length_sha256 (msg : list Z) : List.length (Crypto.sha256 msg) = 32%nat.
Proof.
  unfold Crypto.sha256. rewrite length_bytes_of_words.
  rewrite length_process_blocks; reflexivity.
Qed.

Lemma hex_digit_lower (d : Z) : is_lower_hex (Crypto.hex_digit d) = true.
Proof.
  unfold Crypto.hex_digit.
  pose proof (nth_in_or_default (Z.to_nat d)
                (list_ascii_of_string "0123456789abcdef") "0"%char) as H.
  set (c := nth _ _ _) in *. clearbody c.
  destruct H as [Hin| ->]; [|reflexivity].
  cbn in Hin. repeat (destruct Hin as [<-|Hin]; [reflexivity|]). contradiction.
Qed.

Lemma hex_of_bytes_format (bs : list Z) :
  String.length (Crypto.hex_of_bytes bs) = (2 * List.length bs)%nat
  /\ forallb is_lower_hex (list_ascii_of_string (Crypto.hex_of_bytes bs)) = true.
Proof.
  induction bs as [|b bs [IHl IHc]]; [split; reflexivity|].
  cbn [Crypto.hex_of_bytes String.length list_ascii_of_string forallb List.length].
  rewrite IHl, IHc, !hex_digit_lower. split; [lia|reflexivity].
Qed.

Lemma hmac_sha256_hex_format (key msg : string) :
  String.length (Crypto.hmac_sha256_hex key msg) = 64%nat
  /\ forallb is_lower_hex
       (list_ascii_of_string (Crypto.hmac_sha256_hex key msg)) = true.
Proof.
  unfold Crypto.hmac_sha256_hex, Crypto.hmac_sha256.
  destruct (hex_of_bytes_format
              (Crypto.sha256
                 (map (Z.lxor 92) (Crypto.hmac_key (Crypto.bytes_of_string key))
                  ++ Crypto.sha256
                       (map (Z.lxor 54) (Crypto.hmac_key (Crypto.bytes_of_string key))
                        ++ Crypto.bytes_of_string msg)))) as [Hl Hc].
  rewrite length_sha256 in Hl. split; [exact Hl | exact Hc].
Qed.

(** X20. [POST /verify-payment] answers "authentic" only for a signature of
    exactly 64 characters, all of them lower-case hexadecimal digits: the
    comparison is an exact string comparison with [digest("hex")], so the
    same digest written in upper case, or padded, is answered as not
    authentic. *)
Theorem verify_payment_accepts_only_lower_hex (key : string) (body : VerifyBody) :
  is_authentic (verify_payment (Some key) body) = true ->
  exists s,
    razorpay_signature body = Some s
    /\ String.length s = 64%nat
    /\ forallb is_lower_hex (list_ascii_of_string s) = true.
Proof.
  rewrite verify_payment_run. intros Hauth.
  destruct (strict_eq (Crypto.hmac_sha256_hex key (signed_message body))
              (razorpay_signature body)) eqn:Heq; [|discriminate Hauth].
  apply strict_eq_true in Heq.
  exists (Crypto.hmac_sha256_hex key (signed_message body)).
  split; [exact Heq|]. apply hmac_sha256_hex_format.
Qed.

Lemma verify_payment_accepts_only_lower_hex_witness :
  exists s,
    razorpay_signature (Samples.verify_body (Some Samples.golden_signature)) = Some s
    /\ String.length s = 64%nat
    /\ forallb is_lower_hex (list_ascii_of_string s) = true.
Proof.
  apply (verify_payment_accepts_only_lower_hex "testsecret"
           (Samples.verify_body (Some Samples.golden_signature))).
  vm_compute. reflexivity.
Defined.

(* ------------------------------------------------------------------------- *)
(** * Whole-rupee amounts *)

Lemma exact_paise_from_sound (count : nat) :
  forall n, exact_paise_from count n = true ->
            forall m, n <= m < n + Z.of_nat count -> exact_paise m = true.
Proof.
  induction count as [|count IH]; intros n Hall m Hm; [lia|].
  cbn [exact_paise_from] in Hall.
  destruct (exact_paise n) eqn:Hn; [|discriminate].
  destruct (Z.eq_dec m n) as [->|Hne]; [exact Hn|].
  apply (IH (n + 1) Hall). lia.
Qed.

Lemma exact_paise_upto_lakh : exact_paise_from (Z.to_nat 100001) 0 = true.
Proof. vm_compute. reflexivity. Qed.

(** X21. For a whole number of rupees up to 100000, the amount handed
    to the gateway is exact: [amount * 100] compares equal to the float of
    [100 * n] and is an integer, so the rounding slip of fractional amounts
    does not touch whole-rupee orders. *)
Theorem create_order_whole_rupees_exact (n : Z) (now : Z) :
  0 <= n <= 100000 ->
  PrimFloat.eqb (opt_amount (order_options (rupees n) now)) (float_of_Z (100 * n))
  = true
  /\ is_integer (opt_amount (order_options (rupees n) now)) = true.
Proof.
  intros Hn.
  pose proof (exact_paise_from_sound _ _ exact_paise_upto_lakh n) as H.
  assert (He : exact_paise n = true) by (apply H; lia).
  unfold exact_paise in He. apply andb_prop in He.
  cbn [order_options opt_amount rupees amount]. exact He.
Qed.

Lemma create_order_whole_rupees_exact_witness :
  PrimFloat.eqb (opt_amount (order_options (rupees 499) Samples.t0))
    (float_of_Z (100 * 499)) = true
  /\ is_integer (opt_amount (order_options (rupees 499) Samples.t0)) = true.
Proof.
  apply (create_order_whole_rupees_exact 499 Samples.t0). lia.
Defined.

(* ------------------------------------------------------------------------- *)
(** * The cache over any run *)

Lemma getToken_call_preserves_wf (e : Env) (c : TokenCache) :
  cache_wf c -> cache_wf (snd (fst (getToken_call e c))).
Proof.
  intros Hwf. unfold getToken_call.
  pose proof (getShiprocketToken_preserves_wf e {| cache := c; trace := [] |} Hwf) as H.
  destruct (getShiprocketToken e {| cache := c; trace := [] |}) as [r w].
  exact H.
Qed.

Lemma cache_after_wf (envs : list Env) :
  forall c, cache_wf c -> cache_wf (cache_after c envs).
Proof.
  induction envs as [|e rest IH]; intros c Hwf; [exact Hwf|].
  cbn [cache_after].
  pose proof (getToken_call_preserves_wf e c Hwf) as H.
  destruct (getToken_call e c) as [[r c'] evs]. apply IH. exact H.
Qed.

(** X22. After any run of calls from a cold start, whatever the vendor
    answered in each, the two cache variables are either both [null] or
    hold a non-empty token together with an expiry: no failed login, empty
    token or half-written credential is ever left in the cache. *)
Theorem cache_always_well_formed (envs : list Env) :
  (shiprocketToken (cache_after cold_cache envs) = None
   /\ tokenExpiryTime (cache_after cold_cache envs) = None)
  \/ (exists tok expiry,
        shiprocketToken (cache_after cold_cache envs) = Some tok
        /\ tok <> ""
        /\ tokenExpiryTime (cache_after cold_cache envs) = Some expiry).
Proof.
  pose proof (cache_after_wf envs cold_cache cold_cache_wf) as H.
  unfold cache_wf in H.
  destruct (shiprocketToken (cache_after cold_cache envs)) as [tok|],
           (tokenExpiryTime (cache_after cold_cache envs)) as [x|];
    try contradiction; [right; eauto | left; auto].
Qed.

(* ------------------------------------------------------------------------- *)
(** * The handlers share one cache *)

Lemma shiprocket_test_auth_token (e : Env) (w w1 : World)
  (r : AuthTestResponse) (tok : string) (expiry : Z) :
  shiprocket_test_auth e w = (Returns r, w1) ->
  at_token r = Some tok ->
  at_tokenExpiresAt r = Some expiry ->
  shiprocketToken (cache w1) = Some tok /\ tok <> ""
  /\ tokenExpiryTime (cache w1) = Some expiry.
Proof.
  unfold shiprocket_test_auth, try_catch, bind at 1.
  destruct (token_available e w) eqn:Hav.
  - destruct (getShiprocketToken_available e w Hav) as (tok' & w' & Hrun & Hc & _).
    rewrite Hrun. unfold bind, get_cache, ret. intros Heq Ht Hx.
    assert (Hr : r = {| at_status := 200; at_success := true;
                        at_message := "Shiprocket authentication successful";
                        at_tokenExpiresAt := tokenExpiryTime (cache w');
                        at_token := Some tok'; at_error := None |}
                 /\ w1 = w') by (split; congruence).
    destruct Hr as [-> ->]. cbn in Ht, Hx.
    apply cached_token_spec in Hc as (Hs & Hne & x & Hx' & _).
    assert (tok' = tok) by congruence. subst tok'. auto.
  - rewrite (getShiprocketToken_unavailable e w Hav). unfold ret.
    intros Heq Ht. assert (Hr : at_token r = None) by
      (assert (r = {| at_status := 500; at_success := false;
                      at_message := "Shiprocket authentication failed";
                      at_tokenExpiresAt := None; at_token := None;
                      at_error := Some (failure_message (env_login e)) |})
         by congruence; subst r; reflexivity).
    congruence.
Qed.

(** X23. The handlers share the cache: once [GET /shiprocket/test-auth] has
    answered with a token and its expiry, a [POST /shiprocket/create-order]
    entered at any clock reading strictly before that expiry makes no login,
    leaves the cache as it is, and any call it makes to the order endpoint
    bears the very token the test endpoint reported. *)
Theorem test_auth_then_create_order_reuses_token
  (e e' : Env) (w w1 : World) (r : AuthTestResponse)
  (tok : string) (expiry : Z) (d : OrderData) :
  shiprocket_test_auth e w = (Returns r, w1) ->
  at_token r = Some tok ->
  at_tokenExpiresAt r = Some expiry ->
  env_now e' < expiry ->
  exists r' w2 rest,
    shiprocket_create_order d e' w1 = (Returns r', w2)
    /\ trace w2 = trace w1 ++ rest
    /\ count is_login rest = 0%nat
    /\ cache w2 = cache w1
    /\ (forall tok' body, In (NetCreateShipment tok' body) rest -> tok' = tok).
Proof.
  intros Hrun Ht Hx Hlt.
  destruct (shiprocket_test_auth_token e w w1 r tok expiry Hrun Ht Hx)
    as (Hs & Hne & Hexp).
  assert (Hhit : cached_token (cache w1) (env_now e') = Some tok)
    by (apply cached_token_spec; eauto 6).
  rewrite shiprocket_create_order_run, (getShiprocketToken_hit e' w1 tok Hhit).
  unfold create_order_paths.
  destruct (missing_required d);
    [ | destruct (env_shipment e') as [err|[|] st data] ].
  all: do 3 eexists; (split; [reflexivity|]); open_worlds;
    (split; [reflexivity|]); unfold mail_events;
    destruct (has_null_item (order_items d));
    (split; [reflexivity|]); (split; [reflexivity|]);
    intros tok' body Hin; cbn in Hin; intuition (try discriminate); congruence.
Qed.

Lemma test_auth_then_create_order_reuses_token_witness :
  exists r' w2 rest,
    shiprocket_create_order Samples.full_order
      (Samples.env_at (Samples.t0 + HOUR_MS) Samples.login_tok2)
      (snd (shiprocket_test_auth Samples.env0 cold_world))
    = (Returns r', w2)
    /\ trace w2 = trace (snd (shiprocket_test_auth Samples.env0 cold_world)) ++ rest
    /\ count is_login rest = 0%nat
    /\ cache w2 = cache (snd (shiprocket_test_auth Samples.env0 cold_world))
    /\ (forall tok' body, In (NetCreateShipment tok' body) rest -> tok' = "tok_1").
Proof.
  eapply (test_auth_then_create_order_reuses_token Samples.env0
            (Samples.env_at (Samples.t0 + HOUR_MS) Samples.login_tok2)
            cold_world _ _ "tok_1"
            (add_hours (Samples.t0 + 250) TOKEN_VALIDITY_HOURS)).
  - reflexivity.
  - reflexivity.
  - reflexivity.
  - vm_compute. reflexivity.
Defined.
